(** * Blackjack environment: a shallow embedding and its properties

    The development follows the two Python modules of the repository:
    [blackjack_strategies] (hand evaluator, the [basic] policy and the
    [PlayerStrategy] wrapper) and [blackjack] (the [BlackjackGame] class:
    deck, hand evaluator, outcome resolver, round engine and experiment
    driver).  Python's lists are Rocq lists in index order, its [int] is
    [Z], its [str] is [string], the statistics [dict] is a [gmap], and
    exceptions are the [Raise] results of a small error monad.  The
    process-wide random generator is an explicit stream of numbers, so
    that every possible shuffle is the image of some stream. *)

From Stdlib Require Import ZArith Ascii String List Lia.
From stdpp Require Import base list strings gmap.

Local Open Scope Z_scope.

(** ** The Python fragment the program uses *)

Module Python.

(** The built-in exceptions the program's operations can raise. *)
Inductive exn : Set :=
| IndexError   (* list.pop() on an empty list, list[i] out of range *)
| ValueError   (* int(s) on text that is not a decimal literal *)
| KeyError.    (* d[k] on a missing key *)

(** A computation returns, raises, or (for a [while] loop of the
    embedding only) runs out of fuel. *)
Inductive result (A : Type) : Type :=
| Ok (a : A)
| Raise (e : exn)
| OutOfFuel.
Arguments Ok {A} a.
Arguments Raise {A} e.
Arguments OutOfFuel {A}.

Definition bind {A B : Type} (m : result A) (k : A -> result B) : result B :=
  match m with
  | Ok a => k a
  | Raise e => Raise e
  | OutOfFuel => OutOfFuel
  end.

Definition fails {A : Type} (m : result A) : Prop := exists e, m = Raise e.

(** *** [int(s)] on ASCII text

    Surrounding whitespace (tab, newline, vertical tab, form feed,
    carriage return, space) is skipped, one sign is allowed, and the
    digits may be grouped by single underscores.  The model is [int] on
    ASCII text of at most 4300 characters: it covers neither the decimal
    digits and spaces outside ASCII nor the interpreter's limit on the
    number of digits. *)

Definition is_space (a : ascii) : bool :=
  let n := nat_of_ascii a in
  ((9 <=? n)%nat && (n <=? 13)%nat) || (n =? 32)%nat.

Definition digit_of (a : ascii) : option Z :=
  let n := nat_of_ascii a in
  if ((48 <=? n)%nat && (n <=? 57)%nat) then Some (Z.of_nat (n - 48)) else None.

Fixpoint drop_spaces (l : list ascii) : list ascii :=
  match l with
  | a :: t => if is_space a then drop_spaces t else l
  | [] => []
  end.

Definition strip (l : list ascii) : list ascii :=
  rev (drop_spaces (rev (drop_spaces l))).

(** [after_digit] tells whether the previous character was a digit: an
    underscore is legal only between two digits. *)
Fixpoint digits (l : list ascii) (acc : Z) (after_digit : bool) : option Z :=
  match l with
  | [] => if after_digit then Some acc else None
  | a :: t =>
      match digit_of a with
      | Some d => digits t (10 * acc + d) true
      | None =>
          if (Ascii.eqb a "_" && after_digit)%bool then digits t acc false
          else None
      end
  end.

Definition py_int (s : string) : result Z :=
  let body := strip (list_ascii_of_string s) in
  let '(sign, ds) :=
    match body with
    | a :: t =>
        if Ascii.eqb a "-" then (-1, t)
        else if Ascii.eqb a "+" then (1, t)
        else (1, body)
    | [] => (1, body)
    end in
  match digits ds 0 false with
  | Some n => Ok (sign * n)
  | None => Raise ValueError
  end.

(** *** Lists *)

(** [l * n]: [n] copies of [l]; empty when [n <= 0]. *)
Fixpoint repeat_list {A : Type} (l : list A) (n : nat) : list A :=
  match n with
  | O => []
  | S k => l ++ repeat_list l k
  end.

Definition list_mul {A : Type} (l : list A) (n : Z) : list A :=
  repeat_list l (Z.to_nat n).

(** [l.pop()]: the last element and the list without it. *)
Fixpoint pop {A : Type} (l : list A) : result (A * list A) :=
  match l with
  | [] => Raise IndexError
  | [x] => Ok (x, [])
  | x :: t => bind (pop t) (fun '(y, t') => Ok (y, x :: t'))
  end.

(** [l[i]] for [i >= 0]. *)
Definition getitem {A : Type} (l : list A) (i : nat) : result A :=
  match l !! i with
  | Some x => Ok x
  | None => Raise IndexError
  end.

(** [x in l] on strings. *)
Definition str_in (x : string) (l : list string) : bool :=
  existsb (String.eqb x) l.

(** *** Dictionaries: [d[k] += 1] *)
Definition dict_incr (d : gmap string Z) (k : string) : result (gmap string Z) :=
  match d !! k with
  | Some v => Ok (<[k := v + 1]> d)
  | None => Raise KeyError
  end.

(** *** [while cond: body]

    [cond] may update the state (a strategy object keeps its own);
    the loop gives up with [OutOfFuel] after [fuel] tests of [cond]. *)
Fixpoint while {S : Type} (fuel : nat) (cond : S -> result (bool * S))
    (body : S -> result S) (s : S) : result S :=
  match fuel with
  | O => OutOfFuel
  | Datatypes.S fuel' =>
      bind (cond s) (fun '(b, s1) =>
        if b : bool then bind (body s1) (while fuel' cond body) else Ok s1)
  end.

(** *** The [random] module

    The generator's state is the stream of numbers it will still
    produce; [randbelow n] reduces the next one modulo [n]. *)
Definition RandomState : Type := nat -> nat.

Definition randbelow (n : nat) (r : RandomState) : nat * RandomState :=
  (r O mod n, fun k => r (S k))%nat.

(** [x[i], x[j] = x[j], x[i]]; both indices are in range wherever
    [shuffle] uses it. *)
Definition swap {A : Type} (x : list A) (i j : nat) : list A :=
  match x !! i, x !! j with
  | Some xi, Some xj => <[j := xi]> (<[i := xj]> x)
  | _, _ => x
  end.

(** [random.shuffle(x)]:
    [for i in reversed(range(1, len(x))): j = randbelow(i + 1); swap]. *)
Fixpoint shuffle_from {A : Type} (i : nat) (x : list A) (r : RandomState)
    : list A * RandomState :=
  match i with
  | O => (x, r)
  | S i' =>
      let '(j, r') := randbelow (S i) r in
      shuffle_from i' (swap x i j) r'
  end.

Definition shuffle {A : Type} (x : list A) (r : RandomState)
    : list A * RandomState :=
  shuffle_from (length x - 1) x r.

End Python.

Import Python.

Notation "'let*' x ':=' m 'in' k" := (bind m (fun x => k))
  (at level 10, x name, m at level 100, k at level 200).
Notation "'let*' ' p ':=' m 'in' k" := (bind m (fun p => k))
  (at level 10, p strict pattern, m at level 100, k at level 200).

(** A card is its rank, as the program's strings. *)
Abbreviation Card := string (only parsing).

(** ** blackjack_strategies.py *)

Module blackjack_strategies.

(** The [for card in hand] loop, on the running [(value, aces)]. *)
Fixpoint sum_cards (hand : list Card) (value : Z) (aces : nat)
    : result (Z * nat) :=
  match hand with
  | [] => Ok (value, aces)
  | card :: rest =>
      if str_in card ["J"; "Q"; "K"] then sum_cards rest (value + 10) aces
      else if String.eqb card "A" then sum_cards rest (value + 11) (S aces)
      else let* n := py_int card in sum_cards rest (value + n) aces
  end.

(** [while value > 21 and aces: value -= 10; aces -= 1]; the count
    [aces] is never negative, the loop is a recursion on it. *)
Fixpoint adjust_aces (value : Z) (aces : nat) : Z :=
  match aces with
  | O => value
  | S aces' => if 21 <? value then adjust_aces (value - 10) aces' else value
  end.

Definition calculate_hand_value (hand : list Card) : result Z :=
  let* '(value, aces) := sum_cards hand 0 O in
  Ok (adjust_aces value aces).

(** [basic]: hit below 17; the upcard is not looked at. *)
Definition basic (player_hand : list Card) (dealer_upcard : Card) : result bool :=
  let* v := calculate_hand_value player_hand in Ok (v <? 17).

(** [PlayerStrategy]: an object holding the policy it was built with. *)
Record PlayerStrategy : Type := {
  n_card_decks : Z;
  strategy : list Card -> Card -> result bool
}.

Definition train_strategy (n : Z) : list Card -> Card -> result bool := basic.

Definition __init__ (n : Z) : PlayerStrategy :=
  {| n_card_decks := n; strategy := train_strategy n |}.

Definition __call__ (self : PlayerStrategy) (player_hand : list Card)
    (dealer_upcard : Card) : result bool :=
  strategy self player_hand dealer_upcard.

End blackjack_strategies.

(** ** blackjack.py *)

Module blackjack.

(** The thirteen ranks, and the standard deck: four copies of them. *)
Definition RANKS : list Card :=
  ["2"; "3"; "4"; "5"; "6"; "7"; "8"; "9"; "10"; "J"; "Q"; "K"; "A"].

Definition CARD_DECK : list Card := list_mul RANKS 4.

(** The object's attributes.  The [print] calls guarded by [logging]
    change neither the state nor any result and are left out. *)
Record BlackjackGame : Type := {
  n_card_decks : Z;
  logging : bool;
  cards : list Card
}.

Definition set_cards (self : BlackjackGame) (cs : list Card) : BlackjackGame :=
  {| n_card_decks := n_card_decks self; logging := logging self; cards := cs |}.

Definition __init__ (n : Z) (log : bool) (r : RandomState)
    : BlackjackGame * RandomState :=
  let '(cs, r') := shuffle (list_mul CARD_DECK n) r in
  ({| n_card_decks := n; logging := log; cards := cs |}, r').

Definition deal_card (self : BlackjackGame) : result (Card * BlackjackGame) :=
  let* '(c, rest) := pop (cards self) in
  Ok (c, set_cards self rest).

Fixpoint sum_cards (hand : list Card) (value : Z) (aces : nat)
    : result (Z * nat) :=
  match hand with
  | [] => Ok (value, aces)
  | card :: rest =>
      if str_in card ["J"; "Q"; "K"] then sum_cards rest (value + 10) aces
      else if String.eqb card "A" then sum_cards rest (value + 11) (S aces)
      else let* n := py_int card in sum_cards rest (value + n) aces
  end.

Fixpoint adjust_aces (value : Z) (aces : nat) : Z :=
  match aces with
  | O => value
  | S aces' => if 21 <? value then adjust_aces (value - 10) aces' else value
  end.

Definition calculate_hand_value (hand : list Card) : result Z :=
  let* '(value, aces) := sum_cards hand 0 O in
  Ok (adjust_aces value aces).

(** The [if]/[elif] chain of [determine_winner] on the two values. *)
Definition verdict (player_value dealer_value : Z) : string :=
  if 21 <? player_value then "lose"
  else if (21 <? dealer_value) || (dealer_value <? player_value) then "win"
  else if player_value <? dealer_value then "lose"
  else "draw".

Definition determine_winner (player_hand dealer_hand : list Card)
    : result string :=
  let* player_value := calculate_hand_value player_hand in
  let* dealer_value := calculate_hand_value dealer_hand in
  Ok (verdict player_value dealer_value).

Definition reset (self : BlackjackGame) (r : RandomState)
    : BlackjackGame * RandomState :=
  let '(cs, r') := shuffle (list_mul CARD_DECK (n_card_decks self)) r in
  (set_cards self cs, r').

(** The strategy is any callable: here a function that may keep a state
    of its own between calls, may raise, and answers hit ([true]) or
    stand ([false]).  It sees only its two arguments. *)
Definition Strategy (St : Type) : Type :=
  St -> list Card -> Card -> result (bool * St).

Section Round.
Context {St : Type} (player_strategy : Strategy St).

(** [while player_strategy(player_hand, dealer_hand[0])] *)
Definition player_cond (dealer_hand : list Card)
    (s : BlackjackGame * St * list Card)
    : result (bool * (BlackjackGame * St * list Card)) :=
  let '(self, st, player_hand) := s in
  let* upcard := getitem dealer_hand 0 in
  let* '(hit, st') := player_strategy st player_hand upcard in
  Ok (hit, (self, st', player_hand)).

(** [player_hand.append(self.deal_card())] *)
Definition player_body (s : BlackjackGame * St * list Card)
    : result (BlackjackGame * St * list Card) :=
  let '(self, st, player_hand) := s in
  let* '(c, self') := deal_card self in
  Ok (self', st, player_hand ++ [c]).

(** Every iteration pops a card, so the condition is tested at most
    [len(cards) + 1] times. *)
Definition player_turn (self : BlackjackGame) (st : St)
    (player_hand dealer_hand : list Card)
    : result (BlackjackGame * St * list Card) :=
  while (S (length (cards self))) (player_cond dealer_hand) player_body
    (self, st, player_hand).

(** [while self.calculate_hand_value(dealer_hand) < 17] *)
Definition dealer_cond (s : BlackjackGame * list Card)
    : result (bool * (BlackjackGame * list Card)) :=
  let* v := calculate_hand_value (snd s) in
  Ok (v <? 17, s).

(** [dealer_hand.append(self.deal_card())] *)
Definition dealer_body (s : BlackjackGame * list Card)
    : result (BlackjackGame * list Card) :=
  let '(self, dealer_hand) := s in
  let* '(c, self') := deal_card self in
  Ok (self', dealer_hand ++ [c]).

Definition dealer_turn (self : BlackjackGame) (dealer_hand : list Card)
    : result (BlackjackGame * list Card) :=
  while (S (length (cards self))) dealer_cond dealer_body (self, dealer_hand).

(** The initial deal: two cards to the player, then two to the dealer. *)
Definition deal_hands (self : BlackjackGame)
    : result (BlackjackGame * list Card * list Card) :=
  let* '(c1, self) := deal_card self in
  let* '(c2, self) := deal_card self in
  let* '(c3, self) := deal_card self in
  let* '(c4, self) := deal_card self in
  Ok (self, [c1; c2], [c3; c4]).

(** [play] up to the end of the player's turn. *)
Definition play_player (self : BlackjackGame) (st : St)
    : result (BlackjackGame * St * list Card * list Card) :=
  let* '(self, player_hand, dealer_hand) := deal_hands self in
  let* '(self, st, player_hand) :=
    player_turn self st player_hand dealer_hand in
  Ok (self, st, player_hand, dealer_hand).

(** [play] up to the two final hands. *)
Definition play_hands (self : BlackjackGame) (st : St)
    : result (BlackjackGame * St * list Card * list Card) :=
  let* '(self, st, player_hand, dealer_hand) := play_player self st in
  let* '(self, dealer_hand) := dealer_turn self dealer_hand in
  Ok (self, st, player_hand, dealer_hand).

Definition play (self : BlackjackGame) (st : St)
    : result (string * BlackjackGame * St) :=
  let* '(self, st, player_hand, dealer_hand) := play_hands self st in
  let* outcome := determine_winner player_hand dealer_hand in
  Ok (outcome, self, st).

(** [for _ in range(n_runs)], with [k] iterations left. *)
Fixpoint experiment_loop (k : nat) (self : BlackjackGame) (st : St)
    (r : RandomState) (results : gmap string Z)
    : result (gmap string Z * BlackjackGame * St * RandomState) :=
  match k with
  | O => Ok (results, self, st, r)
  | S k' =>
      let* '(outcome, self, st) := play self st in
      let* results := dict_incr results outcome in
      let '(self, r) := reset self r in
      experiment_loop k' self st r results
  end.

Definition experiment (n_runs : Z) (self : BlackjackGame) (st : St)
    (r : RandomState)
    : result (gmap string Z * BlackjackGame * St * RandomState) :=
  experiment_loop (Z.to_nat n_runs) self st r
    {[ "win" := 0; "lose" := 0; "draw" := 0 ]}.

End Round.

(** A plain function as a strategy without state. *)
Definition stateless (f : list Card -> Card -> result bool) : Strategy unit :=
  fun st player_hand upcard =>
    let* hit := f player_hand upcard in Ok (hit, st).

(** A [PlayerStrategy] object as a strategy: calling it leaves it as it is. *)
Definition callable : Strategy blackjack_strategies.PlayerStrategy :=
  fun ps player_hand upcard =>
    let* hit := blackjack_strategies.__call__ ps player_hand upcard in
    Ok (hit, ps).

End blackjack.

Import blackjack.

(** ** What the rules say, written independently of the program *)

Module Rules.

(** A hand is well formed when every card is one of the thirteen ranks. *)
Definition well_formed (hand : list Card) : Prop :=
  Forall (fun c => c ∈ RANKS) hand.

(** The worth of a rank other than the Ace: its number, or 10 for a
    face card. *)
Definition rank_value (c : Card) : Z :=
  if String.eqb c "2" then 2 else if String.eqb c "3" then 3
  else if String.eqb c "4" then 4 else if String.eqb c "5" then 5
  else if String.eqb c "6" then 6 else if String.eqb c "7" then 7
  else if String.eqb c "8" then 8 else if String.eqb c "9" then 9
  else if String.eqb c "10" then 10
  else if str_in c ["J"; "Q"; "K"] then 10
  else 0.

(** An assignment tells, for the Aces of a hand numbered in the order
    they occur, which ones count 11; the others count 1.  [total high i]
    numbers the next Ace [i]. *)
Fixpoint total (high : nat -> bool) (i : nat) (hand : list Card) : Z :=
  match hand with
  | [] => 0
  | c :: rest =>
      if String.eqb c "A"
      then (if high i then 11 else 1) + total high (S i) rest
      else rank_value c + total high i rest
  end.

Definition hand_total (high : nat -> bool) (hand : list Card) : Z :=
  total high O hand.

(** Every Ace counts 1. *)
Definition all_low : nat -> bool := fun _ => false.

(** The number of Aces, and the total of the other cards. *)
Fixpoint count_aces (hand : list Card) : nat :=
  match hand with
  | [] => O
  | c :: rest =>
      if String.eqb c "A" then S (count_aces rest) else count_aces rest
  end.

Fixpoint base_total (hand : list Card) : Z :=
  match hand with
  | [] => 0
  | c :: rest =>
      if String.eqb c "A" then base_total rest
      else rank_value c + base_total rest
  end.

(** How many of the Aces numbered [i .. i + k - 1] count 11. *)
Fixpoint highs (high : nat -> bool) (i k : nat) : nat :=
  match k with
  | O => O
  | S k' => ((if high i then 1 else 0) + highs high (S i) k')%nat
  end.

(** The outcome resolver's five rules, in their order. *)
Inductive Outcome : Set := Win | Lose | Draw.

Definition resolve (player_value dealer_value : Z) : Outcome :=
  if player_value >? 21 then Lose
  else if dealer_value >? 21 then Win
  else if player_value >? dealer_value then Win
  else if player_value <? dealer_value then Lose
  else Draw.

Definition outcome_name (o : Outcome) : string :=
  match o with
  | Win => "win"
  | Lose => "lose"
  | Draw => "draw"
  end.

(** A deck is fresh for [n] when it was just built: by the constructor
    or by [reset], with [n] decks. *)
Inductive fresh (n : Z) : BlackjackGame -> Prop :=
| fresh_init (log : bool) (r : RandomState) :
    fresh n (fst (__init__ n log r))
| fresh_reset (self : BlackjackGame) (r : RandomState) :
    n_card_decks self = n -> fresh n (fst (reset self r)).

(** [dealt self drawn self']: some successful [deal_card] calls lead
    from [self] to [self'], and returned the cards [drawn], in order. *)
Inductive dealt (self : BlackjackGame) : list Card -> BlackjackGame -> Prop :=
| dealt_none : dealt self [] self
| dealt_more (drawn : list Card) (self1 self2 : BlackjackGame) (c : Card) :
    dealt self drawn self1 ->
    deal_card self1 = Ok (c, self2) ->
    dealt self (drawn ++ [c]) self2.

(** A strategy wrapped so that it notes the arguments of every call it
    answers, in order; its answers are unchanged. *)
Definition recording {St : Type} (strategy : Strategy St)
    : Strategy (St * list (list Card * Card)) :=
  fun s player_hand upcard =>
    let* '(hit, st') := strategy (fst s) player_hand upcard in
    Ok (hit, (st', snd s ++ [(player_hand, upcard)])).

(** [rounds strategy self st r log self' st' r']: the rounds of an
    experiment, each played and followed by [reset]; [log] lists, for
    every round, the game it started on and its outcome. *)
Inductive rounds {St : Type} (strategy : Strategy St)
    : BlackjackGame -> St -> RandomState -> list (BlackjackGame * string) ->
      BlackjackGame -> St -> RandomState -> Prop :=
| rounds_done self st r : rounds strategy self st r [] self st r
| rounds_next self st r outcome self1 st1 log self' st' r' :
    play strategy self st = Ok (outcome, self1, st1) ->
    rounds strategy (fst (reset self1 r)) st1 (snd (reset self1 r))
      log self' st' r' ->
    rounds strategy self st r ((self, outcome) :: log) self' st' r'.


(** The counters of two batches of rounds, added key by key. *)
Definition merge_stats (a b : gmap string Z) : gmap string Z :=
  union_with (fun x y => Some (x + y)) a b.

(** The result of a computation seen through [f]; errors are kept. *)
Definition map_result {A B : Type} (f : A -> B) (m : result A) : result B :=
  let* a := m in Ok (f a).

(** The cards the hand evaluator takes without calling [int]. *)
Definition word_card (c : Card) : bool := str_in c ["J"; "Q"; "K"; "A"].

(** Text on which [py_int] is [int]: ASCII characters, at most 4300. *)
Definition plain_text (c : Card) : Prop :=
  (String.length c <= 4300)%nat
  /\ Forall (fun a => (nat_of_ascii a < 128)%nat) (list_ascii_of_string c).

End Rules.

Import Rules.

(** ** Concrete games, used to run the program *)

Module Examples.

(** A generator that always answers 0, and one that counts. *)
Definition zeros : RandomState := fun _ => O.
Definition counting : RandomState := fun k => k.

(** One deck, shuffled by [counting]. *)
Definition one_deck : BlackjackGame := fst (__init__ 1 true counting).

(** A game whose deck is the given list. *)
Definition game_of (cs : list Card) : BlackjackGame :=
  {| n_card_decks := 1; logging := false; cards := cs |}.

(** The strategy that never stands, and the reference strategy. *)
Definition always_hit : Strategy unit := stateless (fun _ _ => Ok true).
Definition basic_strategy : Strategy unit :=
  stateless blackjack_strategies.basic.

(** A strategy with a state: it counts its calls, hits on the first two
    and stands from the third on, whatever the hand. *)
Definition hit_twice : Strategy nat :=
  fun calls _ _ => Ok ((calls <? 2)%nat, S calls).

End Examples.

Import Examples.

(** ** The hand evaluator *)

Section HandValue.

(** One case per rank of the alphabet. *)
Ltac by_rank H :=
  unfold RANKS in H;
  repeat (apply elem_of_cons in H as [-> | H]; [ | ]);
  [ .. | by apply elem_of_nil in H ].

Lemma sum_cards_well_formed (hand : list Card) :
  well_formed hand ->
  forall value aces,
    sum_cards hand value aces
    = Ok (value + base_total hand + 11 * Z.of_nat (count_aces hand),
          (aces + count_aces hand)%nat).
Proof.
  induction 1 as [ | c rest Hc _ IH ]; intros value aces.
  - cbn. f_equal. f_equal; lia.
  - by_rank Hc; cbn [sum_cards base_total count_aces];
      cbn -[sum_cards Z.add Z.mul Z.of_nat py_int];
      try match goal with
          | |- context [py_int ?s] =>
              let v := eval vm_compute in (py_int s) in
              change (py_int s) with v; cbn [bind]
          end;
      rewrite IH; f_equal; f_equal; lia.
Qed.

Lemma total_split (high : nat -> bool) (hand : list Card) :
  forall i,
    total high i hand
    = base_total hand + Z.of_nat (count_aces hand)
      + 10 * Z.of_nat (highs high i (count_aces hand)).
Proof.
  induction hand as [ | c rest IH ]; intros i; [ reflexivity | ].
  cbn [total base_total count_aces].
  destruct (String.eqb c "A").
  - rewrite IH. cbn [highs]. destruct (high i); lia.
  - rewrite IH. lia.
Qed.

Lemma highs_le (high : nat -> bool) (k : nat) :
  forall i, (highs high i k <= k)%nat.
Proof.
  induction k as [ | k IH ]; intros i; cbn [highs]; [ lia | ].
  specialize (IH (S i)). destruct (high i); lia.
Qed.

Lemma highs_all_low (i k : nat) : highs all_low i k = O.
Proof. revert i. induction k as [ | k IH ]; intros i; cbn; auto. Qed.

(** Any number [j] of high Aces up to [k] is reached: the first [j]. *)
Lemma highs_first (k : nat) :
  forall i j high,
    (j <= k)%nat ->
    (forall n, (i <= n)%nat -> high n = (n <? i + j)%nat) ->
    highs high i k = j.
Proof.
  induction k as [ | k IH ]; intros i j high Hj Hhigh; cbn [highs]; [ lia | ].
  rewrite (Hhigh i) by lia.
  destruct j as [ | j ].
  - replace (i <? i + 0)%nat with false by (symmetry; apply Nat.ltb_ge; lia).
    rewrite (IH (S i) O); [ lia | lia | ].
    intros n Hn. rewrite Hhigh by lia.
    transitivity false; [ | symmetry ]; apply Nat.ltb_ge; lia.
  - replace (i <? i + S j)%nat with true by (symmetry; apply Nat.ltb_lt; lia).
    rewrite (IH (S i) j); [ lia | lia | ].
    intros n Hn. rewrite Hhigh by lia.
    f_equal. lia.
Qed.

(** The softening loop removes [m] tens: no more than there are Aces,
    stopping as soon as the total is at most 21, and never earlier. *)
Lemma adjust_aces_spec (aces : nat) :
  forall value, exists m : nat,
    (m <= aces)%nat
    /\ adjust_aces value aces = value - 10 * Z.of_nat m
    /\ ((m < aces)%nat -> adjust_aces value aces <= 21)
    /\ ((0 < m)%nat -> 21 < adjust_aces value aces + 10).
Proof.
  induction aces as [ | aces IH ]; intros value; cbn [adjust_aces].
  - exists O. repeat split; lia.
  - destruct (Z.ltb_spec 21 value) as [Hgt | Hle].
    + destruct (IH (value - 10)) as (m & Hm & Heq & Hstop & Hlast).
      exists (S m). repeat split; [ lia | lia | lia | ].
      intros _. destruct m as [ | m ]; [ lia | ]. apply Hlast. lia.
    + exists O. repeat split; lia.
Qed.

Lemma calculate_hand_value_well_formed (hand : list Card) :
  well_formed hand ->
  calculate_hand_value hand
  = Ok (adjust_aces (base_total hand + 11 * Z.of_nat (count_aces hand))
          (count_aces hand)).
Proof.
  intros Hwf. unfold calculate_hand_value.
  rewrite (sum_cards_well_formed hand Hwf). reflexivity.
Qed.

End HandValue.

(** C1. On a well-formed hand the evaluator returns the best total: if
    some assignment of 1 or 11 to the Aces stays at or below 21, the
    largest such total; otherwise the least total there is, the one with
    every Ace at 1.  Two, three and eleven Aces are worth 12, 13 and 21. *)
Theorem calculate_hand_value_best (hand : list Card) (Hwf : well_formed hand) :
  (exists v,
      calculate_hand_value hand = Ok v
      /\ (forall high, hand_total all_low hand <= hand_total high hand)
      /\ ((exists high, hand_total high hand <= 21) ->
          v <= 21
          /\ (exists high, hand_total high hand = v)
          /\ (forall high, hand_total high hand <= 21 -> hand_total high hand <= v))
      /\ ((forall high, 21 < hand_total high hand) ->
          v = hand_total all_low hand))
  /\ calculate_hand_value ["A"; "A"] = Ok 12
  /\ calculate_hand_value ["A"; "A"; "A"] = Ok 13
  /\ calculate_hand_value
       ["A"; "A"; "A"; "A"; "A"; "A"; "A"; "A"; "A"; "A"; "A"] = Ok 21.
Proof.
  split; [ | repeat split; reflexivity ].
  rewrite (calculate_hand_value_well_formed hand Hwf).
  set (k := count_aces hand). set (b := base_total hand).
  destruct (adjust_aces_spec k (b + 11 * Z.of_nat k))
    as (m & Hm & Heq & Hstop & Hlast).
  eexists; split; [ reflexivity | ].
  assert (Htot : forall high,
             hand_total high hand = b + Z.of_nat k + 10 * Z.of_nat (highs high O k))
    by (intros high; apply total_split).
  assert (Hlow : hand_total all_low hand = b + Z.of_nat k)
    by (rewrite Htot, highs_all_low; lia).
  split; [ | split ].
  - intros high. rewrite Hlow, Htot. lia.
  - intros [high0 Hhigh0].
    assert (Hmin : b + Z.of_nat k <= 21)
      by (rewrite Htot in Hhigh0; lia).
    split; [ | split ].
    + destruct (decide (m < k)%nat); [ auto | ].
      replace m with k in Heq by lia. lia.
    + exists (fun n => (n <? k - m)%nat).
      rewrite Htot, (highs_first k O (k - m)%nat); [ lia | lia | ].
      intros n _. reflexivity.
    + intros high Hle. rewrite Htot in *.
      pose proof (highs_le high k O) as Hk.
      destruct m as [ | m ]; [ lia | ].
      specialize (Hlast ltac:(lia)). lia.
  - intros Hbust.
    specialize (Hbust all_low). rewrite Hlow in *.
    destruct (decide (m < k)%nat) as [Hlt | Hge].
    + specialize (Hstop Hlt). lia.
    + replace m with k in Heq by lia. lia.
Qed.

Lemma calculate_hand_value_best_witness :
  well_formed ["A"; "6"; "A"]
  /\ calculate_hand_value ["A"; "6"; "A"] = Ok 18
  /\ (forall high,
        hand_total high ["A"; "6"; "A"] <= 21 ->
        hand_total high ["A"; "6"; "A"] <= 18).
Proof.
  assert (Hwf : well_formed ["A"; "6"; "A"]).
  { unfold well_formed, RANKS. repeat constructor;
      repeat (first [ apply list_elem_of_here | apply list_elem_of_further ]). }
  split; [ exact Hwf | split; [ reflexivity | ] ].
  destruct (calculate_hand_value_best ["A"; "6"; "A"] Hwf)
    as [ (v & Hv & _ & Hbest & _) _ ].
  injection Hv as <-.
  intros high Hhigh. apply Hbest; [ exists all_low; vm_compute; discriminate | exact Hhigh ].
Defined.

(** C10. The evaluator of the strategies module and the one of the game
    class agree on every hand, errors included; the basic strategy hits
    exactly when the game's own value of the player hand is below 17. *)
Theorem hand_evaluators_agree (hand : list Card) :
  blackjack_strategies.calculate_hand_value hand = calculate_hand_value hand
  /\ (forall upcard,
        blackjack_strategies.basic hand upcard
        = let* v := calculate_hand_value hand in Ok (v <? 17)).
Proof.
  assert (Hadjust : forall aces value,
             blackjack_strategies.adjust_aces value aces = adjust_aces value aces).
  { induction aces as [ | aces IH ]; intros value; cbn; [ reflexivity | ].
    rewrite IH. reflexivity. }
  assert (Hsum : forall value aces,
             blackjack_strategies.sum_cards hand value aces
             = sum_cards hand value aces).
  { induction hand as [ | c rest IH ]; intros value aces; [ reflexivity | ].
    cbn [blackjack_strategies.sum_cards sum_cards].
    destruct (str_in c ["J"; "Q"; "K"]); [ apply IH | ].
    destruct (String.eqb c "A"); [ apply IH | ].
    destruct (py_int c); cbn [bind]; auto. }
  assert (Heq : blackjack_strategies.calculate_hand_value hand
                = calculate_hand_value hand).
  { unfold blackjack_strategies.calculate_hand_value, calculate_hand_value.
    rewrite Hsum. destruct (sum_cards hand 0 O) as [ [value aces] | | ];
      cbn [bind]; [ | reflexivity.. ].
    rewrite Hadjust. reflexivity. }
  split; [ exact Heq | ].
  intros upcard. unfold blackjack_strategies.basic. rewrite Heq. reflexivity.
Qed.

(** ** The outcome resolver *)

Lemma verdict_resolve (player_value dealer_value : Z) :
  verdict player_value dealer_value
  = outcome_name (resolve player_value dealer_value).
Proof.
  unfold verdict, resolve.
  rewrite !Z.gtb_ltb.
  destruct (21 <? player_value); [ reflexivity | ].
  destruct (21 <? dealer_value); [ reflexivity | ].
  cbn [orb].
  destruct (dealer_value <? player_value); [ reflexivity | ].
  destruct (player_value <? dealer_value); reflexivity.
Qed.

(** C2. [determine_winner] evaluates both hands and answers by the five
    ordered rules; 20 against 19 wins, 22 against 19 loses, 18 against 22
    wins and 17 against 17 draws. *)
Theorem determine_winner_rules (player_hand dealer_hand : list Card) :
  determine_winner player_hand dealer_hand
  = (let* player_value := calculate_hand_value player_hand in
     let* dealer_value := calculate_hand_value dealer_hand in
     Ok (outcome_name (resolve player_value dealer_value)))
  /\ (resolve 20 19 = Win /\ resolve 22 19 = Lose
      /\ resolve 18 22 = Win /\ resolve 17 17 = Draw)
  /\ determine_winner ["K"; "Q"] ["10"; "9"] = Ok "win"
  /\ determine_winner ["K"; "Q"; "2"] ["10"; "9"] = Ok "lose"
  /\ determine_winner ["10"; "8"] ["K"; "Q"; "2"] = Ok "win"
  /\ determine_winner ["10"; "7"] ["9"; "8"] = Ok "draw".
Proof.
  split; [ | repeat split; reflexivity ].
  unfold determine_winner.
  destruct (calculate_hand_value player_hand) as [ pv | | ]; cbn [bind]; auto.
  destruct (calculate_hand_value dealer_hand) as [ dv | | ]; cbn [bind]; auto.
  rewrite verdict_resolve. reflexivity.
Qed.

(** ** The deck *)

Section Deck.

Lemma pop_snoc {A : Type} (l : list A) (x : A) : pop (l ++ [x]) = Ok (x, l).
Proof.
  induction l as [ | y l IH ]; [ reflexivity | ].
  change ((y :: l) ++ [x]) with (y :: (l ++ [x])).
  cbn [pop]. rewrite IH.
  destruct l; reflexivity.
Qed.

Lemma pop_Ok {A : Type} (l l' : list A) (x : A) :
  pop l = Ok (x, l') -> l = l' ++ [x].
Proof.
  destruct l as [ | y l _ ] using rev_ind; [ discriminate | ].
  rewrite pop_snoc. intros [= -> ->]. reflexivity.
Qed.

Lemma pop_fuel {A : Type} (l : list A) : pop l <> OutOfFuel.
Proof.
  destruct l as [ | y l _ ] using rev_ind; [ discriminate | ].
  rewrite pop_snoc. discriminate.
Qed.

Lemma deal_card_snoc (self : BlackjackGame) (rest : list Card) (c : Card) :
  cards self = rest ++ [c] -> deal_card self = Ok (c, set_cards self rest).
Proof. intros Hc. unfold deal_card. rewrite Hc, pop_snoc. reflexivity. Qed.

Lemma deal_card_nil (self : BlackjackGame) :
  cards self = [] -> deal_card self = Raise IndexError.
Proof. intros Hc. unfold deal_card. rewrite Hc. reflexivity. Qed.

Lemma deal_card_Ok (self self' : BlackjackGame) (c : Card) :
  deal_card self = Ok (c, self') ->
  cards self = cards self' ++ [c] /\ self' = set_cards self (cards self').
Proof.
  unfold deal_card. intros H.
  destruct (pop (cards self)) as [ [x rest] | | ] eqn:Hpop; try discriminate.
  injection H as -> <-. apply pop_Ok in Hpop. auto.
Qed.

(** Either the deck has a last card, and [deal_card] returns it, or it
    is empty, and [deal_card] raises. *)
Lemma deal_card_cases (self : BlackjackGame) :
  (exists c self', deal_card self = Ok (c, self')
                   /\ cards self = cards self' ++ [c]
                   /\ self' = set_cards self (cards self'))
  \/ (deal_card self = Raise IndexError /\ cards self = []).
Proof.
  destruct (cards self) as [ | c rest _ ] eqn:Hc using rev_ind.
  - right. split; [ apply deal_card_nil | ]; auto.
  - left. exists c, (set_cards self rest).
    split; [ apply deal_card_snoc | ]; auto.
Qed.

(** *** Shuffling permutes *)

Lemma swap_head {A : Type} (t : list A) (h b : A) :
  forall j, t !! j = Some b -> b :: <[j := h]> t ≡ₚ h :: t.
Proof.
  induction t as [ | x t IH ]; intros [ | j ] Hj; try discriminate.
  - injection Hj as ->. apply perm_swap.
  - cbn in Hj |- *. rewrite (perm_swap x b), (IH j Hj). apply perm_swap.
Qed.

Lemma swap_perm {A : Type} (x : list A) : forall i j, swap x i j ≡ₚ x.
Proof.
  unfold swap. induction x as [ | h t IH ]; intros i j.
  - destruct i; reflexivity.
  - destruct i as [ | i ], j as [ | j ]; cbn.
    + reflexivity.
    + destruct (t !! j) as [ b | ] eqn:Hj; [ | reflexivity ].
      apply swap_head; assumption.
    + destruct (t !! i) as [ a | ] eqn:Hi; [ | reflexivity ].
      apply swap_head; assumption.
    + specialize (IH i j).
      destruct (t !! i), (t !! j); cbn; try reflexivity.
      apply perm_skip, IH.
Qed.

Lemma shuffle_from_perm {A : Type} (i : nat) :
  forall (x : list A) r, fst (shuffle_from i x r) ≡ₚ x.
Proof.
  induction i as [ | i IH ]; intros x r; [ reflexivity | ].
  cbn [shuffle_from randbelow]. rewrite IH. apply swap_perm.
Qed.

Lemma shuffle_perm {A : Type} (x : list A) r : fst (shuffle x r) ≡ₚ x.
Proof. apply shuffle_from_perm. Qed.

Lemma shuffle_nil {A : Type} r : shuffle (@nil A) r = ([], r).
Proof. reflexivity. Qed.

(** *** The contents of a fresh deck *)

Lemma length_repeat_list {A : Type} (l : list A) (k : nat) :
  length (repeat_list l k) = (k * length l)%nat.
Proof. induction k as [ | k IH ]; cbn; [ | rewrite length_app, IH ]; lia. Qed.

Lemma count_repeat_list (l : list Card) (c : Card) (k : nat) :
  count_occ string_dec (repeat_list l k) c = (k * count_occ string_dec l c)%nat.
Proof. induction k as [ | k IH ]; cbn; [ | rewrite count_occ_app, IH ]; lia. Qed.

Lemma Forall_repeat_list {A : Type} (P : A -> Prop) (l : list A) (k : nat) :
  Forall P l -> Forall P (repeat_list l k).
Proof. intros Hl. induction k; cbn; [ constructor | apply Forall_app; auto ]. Qed.

Lemma CARD_DECK_count (c : Card) :
  c ∈ RANKS -> count_occ string_dec CARD_DECK c = 4%nat.
Proof.
  intros Hc. unfold RANKS in Hc.
  repeat (apply elem_of_cons in Hc as [-> | Hc]; [ reflexivity | ]).
  by apply elem_of_nil in Hc.
Qed.

Lemma CARD_DECK_well_formed : well_formed CARD_DECK.
Proof.
  apply Forall_repeat_list. apply Forall_forall. auto.
Qed.

Lemma fresh_cards (n : Z) (self : BlackjackGame) :
  fresh n self ->
  n_card_decks self = n /\ cards self ≡ₚ list_mul CARD_DECK n.
Proof.
  intros [ log r | g r Hn ].
  - unfold __init__.
    pose proof (shuffle_perm (list_mul CARD_DECK n) r) as Hp.
    destruct (shuffle (list_mul CARD_DECK n) r) as [cs r']. auto.
  - unfold reset.
    pose proof (shuffle_perm (list_mul CARD_DECK (n_card_decks g)) r) as Hp.
    destruct (shuffle (list_mul CARD_DECK (n_card_decks g)) r) as [cs r'].
    rewrite <- Hn. auto.
Qed.

Lemma dealt_cards (self self' : BlackjackGame) (drawn : list Card) :
  dealt self drawn self' ->
  cards self = cards self' ++ rev drawn
  /\ n_card_decks self' = n_card_decks self.
Proof.
  induction 1 as [ | drawn self1 self2 c _ [IHc IHn] Hdeal ].
  - rewrite app_nil_r. auto.
  - apply deal_card_Ok in Hdeal as [Hc ->].
    rewrite rev_app_distr, IHc, Hc, <- app_assoc. auto.
Qed.

End Deck.

(** C7. [deal_card] returns the card at the end of the deck and leaves
    the cards before it; on an empty deck it raises [IndexError], the
    error of [list.pop], and changes nothing. *)
Theorem deal_card_takes_last (n : Z) (log : bool) (rest : list Card) (c : Card) :
  deal_card {| n_card_decks := n; logging := log; cards := rest ++ [c] |}
  = Ok (c, {| n_card_decks := n; logging := log; cards := rest |})
  /\ deal_card {| n_card_decks := n; logging := log; cards := [] |}
     = Raise IndexError
  /\ fails (deal_card {| n_card_decks := n; logging := log; cards := [] |})
  /\ (forall self, cards self = [] <-> fails (deal_card self)).
Proof.
  split; [ | split; [ | split ] ].
  - exact (deal_card_snoc
             {| n_card_decks := n; logging := log; cards := rest ++ [c] |}
             rest c eq_refl).
  - reflexivity.
  - exists IndexError. reflexivity.
  - intros self. split.
    + intros Hnil. exists IndexError. apply deal_card_nil, Hnil.
    + intros [e He].
      destruct (deal_card_cases self) as [ (x & g & Hok & _) | [_ Hnil] ];
        [ congruence | exact Hnil ].
Qed.

(** C8. With [n >= 1] decks a fresh deck (after the constructor or after
    [reset]) has [52 * n] cards, [4 * n] of each rank; a successful
    [deal_card] shortens the deck by one; and the cards left together with
    the cards dealt since are, as a multiset, the cards of any fresh deck
    of the same [n]. *)
Theorem deck_invariant (n : Z) (Hn : 1 <= n)
    (self : BlackjackGame) (Hfresh : fresh n self) :
  Z.of_nat (length (cards self)) = 52 * n
  /\ (forall c, c ∈ RANKS ->
        Z.of_nat (count_occ string_dec (cards self) c) = 4 * n)
  /\ (forall g c g',
        deal_card g = Ok (c, g') -> length (cards g) = S (length (cards g')))
  /\ (forall drawn self',
        dealt self drawn self' ->
        (length (cards self') + length drawn = length (cards self))%nat
        /\ forall other, fresh n other -> cards self' ++ drawn ≡ₚ cards other).
Proof.
  destruct (fresh_cards n self Hfresh) as [Hdecks Hperm].
  split; [ | split; [ | split ] ].
  - rewrite Hperm. unfold list_mul.
    rewrite length_repeat_list.
    change (length CARD_DECK) with 52%nat. lia.
  - intros c Hc.
    rewrite (proj1 (Permutation_count_occ string_dec _ _) Hperm c).
    unfold list_mul. rewrite count_repeat_list, (CARD_DECK_count c Hc). lia.
  - intros g c g' Hdeal. apply deal_card_Ok in Hdeal as [-> _].
    rewrite length_app. cbn. lia.
  - intros drawn self' Hdealt.
    destruct (dealt_cards _ _ _ Hdealt) as [Hcards _].
    split.
    + rewrite Hcards, length_app, length_rev. reflexivity.
    + intros other Hother.
      destruct (fresh_cards n other Hother) as [_ Hperm'].
      rewrite Hperm', <- Hperm, Hcards.
      apply Permutation_app_head, Permutation_rev.
Qed.

Lemma deck_invariant_witness :
  1 <= 1 /\ fresh 1 one_deck
  /\ Z.of_nat (length (cards one_deck)) = 52 * 1
  /\ Z.of_nat (count_occ string_dec (cards one_deck) "A") = 4 * 1.
Proof.
  pose (H1 := ltac:(lia) : 1 <= 1).
  pose (Hf := fresh_init 1 true counting : fresh 1 one_deck).
  split; [ exact H1 | split; [ exact Hf | ] ].
  split.
  - exact (proj1 (deck_invariant 1 H1 one_deck Hf)).
  - apply (proj1 (proj2 (deck_invariant 1 H1 one_deck Hf))).
    unfold RANKS. repeat (first [ apply list_elem_of_here | apply list_elem_of_further ]).
Defined.

(** ** The two turns of a round *)

Section Turns.

Context {St : Type} (strategy : Strategy St).

(** One test of the player's loop condition and, on a hit, one run of
    its body. *)
Lemma player_turn_unfold (self : BlackjackGame) (st : St)
    (player_hand dealer_hand : list Card) :
  player_turn strategy self st player_hand dealer_hand
  = (let* upcard := getitem dealer_hand 0 in
     let* '(hit, st') := strategy st player_hand upcard in
     if hit : bool
     then let* '(c, self') := deal_card self in
          player_turn strategy self' st' (player_hand ++ [c]) dealer_hand
     else Ok (self, st', player_hand)).
Proof.
  unfold player_turn. cbn [while]. unfold player_cond at 1.
  destruct (getitem dealer_hand 0) as [ upcard | | ]; cbn [bind]; auto.
  destruct (strategy st player_hand upcard) as [ [ [ | ] st' ] | | ];
    cbn [bind]; auto.
  unfold player_body at 1.
  destruct (deal_card_cases self) as [ (c & self' & Hok & Hc & _) | [Hr Hnil] ].
  - rewrite Hok. cbn [bind]. rewrite Hc, length_app, Nat.add_1_r. reflexivity.
  - rewrite Hr. reflexivity.
Qed.

Lemma dealer_turn_unfold (self : BlackjackGame) (dealer_hand : list Card) :
  dealer_turn self dealer_hand
  = (let* v := calculate_hand_value dealer_hand in
     if v <? 17
     then let* '(c, self') := deal_card self in
          dealer_turn self' (dealer_hand ++ [c])
     else Ok (self, dealer_hand)).
Proof.
  unfold dealer_turn. cbn [while]. unfold dealer_cond at 1. cbn [snd].
  destruct (calculate_hand_value dealer_hand) as [ v | | ]; cbn [bind]; auto.
  destruct (v <? 17); auto.
  unfold dealer_body at 1.
  destruct (deal_card_cases self) as [ (c & self' & Hok & Hc & _) | [Hr Hnil] ].
  - rewrite Hok. cbn [bind]. rewrite Hc, length_app, Nat.add_1_r. reflexivity.
  - rewrite Hr. reflexivity.
Qed.

(** Induction on the size of the deck, the measure of both loops. *)
Lemma deck_ind (P : BlackjackGame -> Prop) :
  (forall self,
      (forall c self', deal_card self = Ok (c, self') -> P self') -> P self) ->
  forall self, P self.
Proof.
  intros Hstep self.
  remember (length (cards self)) as n eqn:Hn.
  revert self Hn. induction n as [ | n IH ]; intros self Hn; apply Hstep.
  - intros c self' Hok. apply deal_card_Ok in Hok as [Hc _].
    rewrite Hc, length_app in Hn. cbn in Hn. lia.
  - intros c self' Hok. apply IH.
    apply deal_card_Ok in Hok as [Hc _].
    rewrite Hc, length_app in Hn. cbn in Hn. lia.
Qed.

Lemma deal_card_fuel (self : BlackjackGame) : deal_card self <> OutOfFuel.
Proof.
  destruct (deal_card_cases self) as [ (c & self' & Hok & _) | [Hr _] ];
    congruence.
Qed.

Lemma sum_cards_fuel (hand : list Card) :
  forall value aces, sum_cards hand value aces <> OutOfFuel.
Proof.
  induction hand as [ | c rest IH ]; intros value aces; cbn [sum_cards];
    [ discriminate | ].
  destruct (str_in c ["J"; "Q"; "K"]); [ apply IH | ].
  destruct (String.eqb c "A"); [ apply IH | ].
  unfold py_int.
  destruct (let '(sign, ds) := _ in _) eqn:Hint; cbn [bind];
    [ apply IH | discriminate | ].
  revert Hint. repeat case_match; discriminate.
Qed.

Lemma calculate_hand_value_fuel (hand : list Card) :
  calculate_hand_value hand <> OutOfFuel.
Proof.
  unfold calculate_hand_value.
  pose proof (sum_cards_fuel hand 0 O) as H.
  destruct (sum_cards hand 0 O) as [ [value aces] | | ]; cbn [bind]; congruence.
Qed.

(** The player's loop ends whenever the strategy's calls do. *)
Lemma player_turn_fuel (dealer_hand : list Card) :
  (forall st h u, strategy st h u <> OutOfFuel) ->
  forall self st player_hand,
    player_turn strategy self st player_hand dealer_hand <> OutOfFuel.
Proof.
  intros Hterm self. induction self as [ self IH ] using deck_ind.
  intros st player_hand. rewrite player_turn_unfold.
  destruct (getitem dealer_hand 0) as [ upcard | | ] eqn:Hup; cbn [bind];
    [ | discriminate | ].
  2: { unfold getitem in Hup. destruct (dealer_hand !! O); discriminate. }
  specialize (Hterm st player_hand upcard).
  destruct (strategy st player_hand upcard) as [ [ [ | ] st' ] | | ];
    cbn [bind]; try congruence.
  pose proof (deal_card_fuel self) as Hd.
  destruct (deal_card self) as [ [c self'] | | ] eqn:Hok; cbn [bind];
    try congruence.
  apply (IH c self' eq_refl).
Qed.

Lemma dealer_turn_fuel (self : BlackjackGame) :
  forall dealer_hand, dealer_turn self dealer_hand <> OutOfFuel.
Proof.
  induction self as [ self IH ] using deck_ind.
  intros dealer_hand. rewrite dealer_turn_unfold.
  pose proof (calculate_hand_value_fuel dealer_hand) as Hv.
  destruct (calculate_hand_value dealer_hand) as [ v | | ]; cbn [bind];
    try congruence.
  destruct (v <? 17); [ | discriminate ].
  pose proof (deal_card_fuel self) as Hd.
  destruct (deal_card self) as [ [c self'] | | ] eqn:Hok; cbn [bind];
    try congruence.
  apply (IH c self' eq_refl).
Qed.

Lemma dealt_first (self self1 self' : BlackjackGame) (c : Card)
    (drawn : list Card) :
  deal_card self = Ok (c, self1) ->
  dealt self1 drawn self' ->
  dealt self (c :: drawn) self'.
Proof.
  intros Hok Hd. induction Hd as [ | drawn s1 s2 x _ IHd Hx ].
  - apply (dealt_more self [] self self1 c); [ constructor | exact Hok ].
  - apply (dealt_more self (c :: drawn) s1 s2 x); assumption.
Qed.

(** A finished dealer turn dealt some cards onto the hand: the hand was
    below 17 before each of them and is at 17 or more at the end. *)
Lemma dealer_turn_Ok (self : BlackjackGame) :
  forall dealer_hand self' dealer_hand',
    dealer_turn self dealer_hand = Ok (self', dealer_hand') ->
    exists drawn v,
      dealt self drawn self'
      /\ dealer_hand' = dealer_hand ++ drawn
      /\ calculate_hand_value dealer_hand' = Ok v /\ 17 <= v
      /\ (forall k, (k < length drawn)%nat ->
            exists u, calculate_hand_value (dealer_hand ++ take k drawn) = Ok u
                      /\ u < 17).
Proof.
  induction self as [ self IH ] using deck_ind.
  intros dealer_hand self' dealer_hand'. rewrite dealer_turn_unfold.
  destruct (calculate_hand_value dealer_hand) as [ v | | ] eqn:Hv; cbn [bind];
    try discriminate.
  destruct (Z.ltb_spec v 17) as [Hlt | Hge].
  - destruct (deal_card self) as [ [c self1] | | ] eqn:Hok; cbn [bind];
      try discriminate.
    intros Hrun.
    destruct (IH c self1 eq_refl _ _ _ Hrun)
      as (drawn & v' & Hd & -> & Hv' & Hge & Hbelow).
    exists (c :: drawn), v'. repeat split; auto.
    + eapply dealt_first; eassumption.
    + rewrite <- app_assoc. reflexivity.
    + intros [ | k ] Hk.
      * exists v. cbn [take]. rewrite app_nil_r. auto.
      * cbn [take]. cbn [length] in Hk.
        destruct (Hbelow k ltac:(lia)) as (u & Hu & Hu17).
        exists u. rewrite <- app_assoc in Hu. auto.
  - intros [= <- <-]. exists [], v.
    rewrite app_nil_r. repeat split; auto; [ constructor | ].
    intros k Hk. cbn in Hk. lia.
Qed.

(** A finished player turn dealt some cards onto the hand, and the
    strategy's last answer, on the final hand, was to stand. *)
Lemma player_turn_Ok (dealer_hand : list Card) (self : BlackjackGame) :
  forall st player_hand self' st' player_hand',
    player_turn strategy self st player_hand dealer_hand
    = Ok (self', st', player_hand') ->
    exists drawn st0 upcard,
      dealt self drawn self'
      /\ player_hand' = player_hand ++ drawn
      /\ getitem dealer_hand 0 = Ok upcard
      /\ strategy st0 player_hand' upcard = Ok (false, st').
Proof.
  induction self as [ self IH ] using deck_ind.
  intros st player_hand self' st' player_hand'. rewrite player_turn_unfold.
  destruct (getitem dealer_hand 0) as [ upcard | | ] eqn:Hup; cbn [bind];
    try discriminate.
  destruct (strategy st player_hand upcard) as [ [ [ | ] st1 ] | | ] eqn:Hs;
    cbn [bind]; try discriminate.
  - destruct (deal_card self) as [ [c self1] | | ] eqn:Hok; cbn [bind];
      try discriminate.
    intros Hrun.
    destruct (IH c self1 eq_refl _ _ _ _ _ Hrun)
      as (drawn & st0 & up & Hd & -> & Hup' & Hlast).
    rewrite <- app_assoc in Hlast |- *.
    exists (c :: drawn), st0, up. repeat split; auto.
    eapply dealt_first; eassumption.
  - intros [= <- <- <-]. exists [], st, upcard.
    rewrite app_nil_r. repeat split; auto. constructor.
Qed.

End Turns.

(** C3. The dealer draws while the hand is below 17 and stands as soon
    as it is at 17 or more, a soft 17 included; a dealer turn that ends
    leaves the hand at 17 or more, and the loop always ends, by standing
    or on the empty deck. *)
Theorem dealer_stands_on_17 (self : BlackjackGame) (dealer_hand : list Card)
    (v : Z) (Hv : calculate_hand_value dealer_hand = Ok v) :
  dealer_turn self dealer_hand
  = (if v <? 17
     then let* '(c, self') := deal_card self in
          dealer_turn self' (dealer_hand ++ [c])
     else Ok (self, dealer_hand))
  /\ (forall self' dealer_hand',
        dealer_turn self dealer_hand = Ok (self', dealer_hand') ->
        exists drawn v',
          dealt self drawn self'
          /\ dealer_hand' = dealer_hand ++ drawn
          /\ calculate_hand_value dealer_hand' = Ok v' /\ 17 <= v'
          /\ (forall k, (k < length drawn)%nat ->
                exists u,
                  calculate_hand_value (dealer_hand ++ take k drawn) = Ok u
                  /\ u < 17))
  /\ dealer_turn self dealer_hand <> OutOfFuel
  /\ calculate_hand_value ["A"; "6"] = Ok 17
  /\ dealer_turn self ["A"; "6"] = Ok (self, ["A"; "6"])
  /\ dealer_turn self ["10"; "7"] = Ok (self, ["10"; "7"]).
Proof.
  split; [ | split; [ | split; [ | split; [ | split ] ] ] ].
  - rewrite dealer_turn_unfold, Hv. reflexivity.
  - apply dealer_turn_Ok.
  - apply dealer_turn_fuel.
  - reflexivity.
  - rewrite dealer_turn_unfold. reflexivity.
  - rewrite dealer_turn_unfold. reflexivity.
Qed.

Lemma dealer_stands_on_17_witness :
  calculate_hand_value ["K"; "5"] = Ok 15
  /\ dealer_turn (game_of ["2"; "9"; "4"]) ["K"; "5"]
     = Ok (game_of ["2"; "9"], ["K"; "5"; "4"]).
Proof.
  pose (Hv := eq_refl : calculate_hand_value ["K"; "5"] = Ok 15).
  split; [ exact Hv | ].
  rewrite (proj1 (dealer_stands_on_17 (game_of ["2"; "9"; "4"]) ["K"; "5"] 15 Hv)).
  reflexivity.
Defined.

(** ** Hard totals: every Ace at 1 *)

Section HardTotal.

Lemma hand_total_low (hand : list Card) :
  hand_total all_low hand = base_total hand + Z.of_nat (count_aces hand).
Proof. unfold hand_total. rewrite total_split, highs_all_low. lia. Qed.

Lemma base_total_app (h h' : list Card) :
  base_total (h ++ h') = base_total h + base_total h'.
Proof.
  induction h as [ | c h IH ]; [ reflexivity | ].
  cbn [app base_total]. destruct (String.eqb c "A"); lia.
Qed.

Lemma count_aces_app (h h' : list Card) :
  count_aces (h ++ h') = (count_aces h + count_aces h')%nat.
Proof.
  induction h as [ | c h IH ]; [ reflexivity | ].
  cbn [app count_aces]. destruct (String.eqb c "A"); lia.
Qed.

Lemma hand_total_low_app (h h' : list Card) :
  hand_total all_low (h ++ h')
  = hand_total all_low h + hand_total all_low h'.
Proof. rewrite !hand_total_low, base_total_app, count_aces_app. lia. Qed.

Lemma hand_total_low_rank (c : Card) :
  c ∈ RANKS -> 1 <= hand_total all_low [c] <= 10.
Proof.
  intros Hc. unfold RANKS in Hc.
  repeat (apply elem_of_cons in Hc as [-> | Hc]; [ vm_compute; intuition discriminate | ]).
  by apply elem_of_nil in Hc.
Qed.

(** The hard total counts at least one per card. *)
Lemma hand_total_low_length (hand : list Card) :
  well_formed hand -> Z.of_nat (length hand) <= hand_total all_low hand.
Proof.
  induction 1 as [ | c rest Hc _ IH ]; [ reflexivity | ].
  change (c :: rest) with ([c] ++ rest).
  rewrite hand_total_low_app, length_app.
  pose proof (hand_total_low_rank c Hc). cbn [length]. lia.
Qed.

(** The value of a well-formed hand lies between its hard total and
    the total with every Ace at 11; above 21 it is the hard total. *)
Lemma calculate_hand_value_hard (hand : list Card) :
  well_formed hand ->
  exists v,
    calculate_hand_value hand = Ok v
    /\ hand_total all_low hand <= v
    /\ (21 < v -> v = hand_total all_low hand)
    /\ (21 < hand_total all_low hand -> v = hand_total all_low hand).
Proof.
  intros Hwf. rewrite (calculate_hand_value_well_formed hand Hwf).
  rewrite hand_total_low.
  destruct (adjust_aces_spec (count_aces hand)
              (base_total hand + 11 * Z.of_nat (count_aces hand)))
    as (m & Hm & Heq & Hstop & _).
  eexists; split; [ reflexivity | ].
  rewrite Heq in *.
  split; [ lia | ].
  split; intros Hbust; destruct (decide (m < count_aces hand)%nat); lia.
Qed.

(** A busted hand stays busted when a card is added. *)
Lemma bust_stays (hand : list Card) (c : Card) (v : Z) :
  well_formed hand -> c ∈ RANKS ->
  calculate_hand_value hand = Ok v -> 21 < v ->
  exists v', calculate_hand_value (hand ++ [c]) = Ok v' /\ v < v'.
Proof.
  intros Hwf Hc Hv Hbust.
  assert (Hwf' : well_formed (hand ++ [c])).
  { apply Forall_app. split; [ exact Hwf | ]. constructor; [ exact Hc | constructor ]. }
  destruct (calculate_hand_value_hard hand Hwf) as (u & Hu & _ & Hhard & _).
  destruct (calculate_hand_value_hard _ Hwf') as (v' & Hv' & Hlow & _).
  rewrite Hu in Hv. injection Hv as ->.
  exists v'. split; [ exact Hv' | ].
  rewrite hand_total_low_app in Hlow.
  pose proof (hand_total_low_rank c Hc). specialize (Hhard Hbust). lia.
Qed.

End HardTotal.

(** ** The player's turn *)

Section PlayerTurn.

Context {St : Type} (strategy : Strategy St).

(** A strategy that hits on every busted hand empties the deck. *)
Lemma hits_past_21 (dealer_hand : list Card) (upcard : Card) :
  getitem dealer_hand 0 = Ok upcard ->
  (forall st h u v,
      calculate_hand_value h = Ok v -> 21 < v ->
      exists st', strategy st h u = Ok (true, st')) ->
  forall self st player_hand v,
    well_formed (cards self) -> well_formed player_hand ->
    calculate_hand_value player_hand = Ok v -> 21 < v ->
    player_turn strategy self st player_hand dealer_hand = Raise IndexError.
Proof.
  intros Hup Hhit self. induction self as [ self IH ] using deck_ind.
  intros st player_hand v Hdeck Hwf Hv Hbust.
  rewrite player_turn_unfold, Hup. cbn [bind].
  destruct (Hhit st player_hand upcard v Hv Hbust) as [st' ->]. cbn [bind].
  destruct (deal_card_cases self) as [ (c & self' & Hok & Hc & _) | [Hr _] ].
  - rewrite Hok. cbn [bind].
    rewrite Hc in Hdeck. apply Forall_app in Hdeck as [Hdeck' Hcwf].
    apply Forall_inv in Hcwf.
    destruct (bust_stays player_hand c v Hwf Hcwf Hv Hbust) as (v' & Hv' & Hlt).
    apply (IH c self' Hok st' (player_hand ++ [c]) v'); auto; [ | lia ].
    apply Forall_app. split; [ exact Hwf | ]. constructor; [ exact Hcwf | constructor ].
  - rewrite Hr. reflexivity.
Qed.

(** One hit: the last card of the deck goes onto the hand. *)
Lemma player_turn_hit (self : BlackjackGame) (st st' : St)
    (player_hand dealer_hand rest : list Card) (c upcard : Card) :
  getitem dealer_hand 0 = Ok upcard ->
  strategy st player_hand upcard = Ok (true, st') ->
  cards self = rest ++ [c] ->
  player_turn strategy self st player_hand dealer_hand
  = player_turn strategy (set_cards self rest) st' (player_hand ++ [c])
      dealer_hand.
Proof.
  intros Hup Hhit Hc.
  rewrite player_turn_unfold, Hup. cbn [bind]. rewrite Hhit. cbn [bind].
  rewrite (deal_card_snoc self rest c Hc). reflexivity.
Qed.

(** A strategy that hits on every busted hand takes the cards of the
    deck one after the other, from its end, onto the hand. *)
Lemma hits_past_21_cards (dealer_hand : list Card) (upcard : Card) :
  getitem dealer_hand 0 = Ok upcard ->
  (forall st h u v,
      calculate_hand_value h = Ok v -> 21 < v ->
      exists st', strategy st h u = Ok (true, st')) ->
  forall drawn self st player_hand v rest,
    cards self = rest ++ drawn ->
    well_formed drawn -> well_formed player_hand ->
    calculate_hand_value player_hand = Ok v -> 21 < v ->
    exists st' v',
      player_turn strategy self st player_hand dealer_hand
      = player_turn strategy (set_cards self rest) st'
          (player_hand ++ rev drawn) dealer_hand
      /\ calculate_hand_value (player_hand ++ rev drawn) = Ok v'
      /\ 21 < v'.
Proof.
  intros Hup Hhit drawn.
  induction drawn as [ | c drawn IH ] using rev_ind;
    intros self st player_hand v rest Hc Hdrawn Hwf Hv Hbust.
  - exists st, v. cbn [rev]. rewrite !app_nil_r in *.
    split; [ | auto ].
    f_equal. destruct self as [n log cs]. cbn in Hc. subst cs. reflexivity.
  - apply Forall_app in Hdrawn as [Hdrawn Hcwf]. apply Forall_inv in Hcwf.
    destruct (Hhit st player_hand upcard v Hv Hbust) as [st1 Hst1].
    rewrite app_assoc in Hc.
    rewrite (player_turn_hit self st st1 player_hand dealer_hand
               (rest ++ drawn) c upcard Hup Hst1 Hc).
    destruct (bust_stays player_hand c v Hwf Hcwf Hv Hbust) as (v1 & Hv1 & Hlt).
    destruct (IH (set_cards self (rest ++ drawn)) st1 (player_hand ++ [c]) v1 rest)
      as (st' & v' & Hrun & Hv' & Hbust'); auto; [ | lia | ].
    { apply Forall_app. split; [ exact Hwf | ].
      constructor; [ exact Hcwf | constructor ]. }
    exists st', v'. rewrite rev_app_distr. cbn [rev app].
    rewrite <- app_assoc in Hrun, Hv'. cbn [app] in Hrun, Hv'.
    split; [ exact Hrun | auto ].
Qed.

(** The loop condition reads the dealer's hand at index 0 only. *)
Lemma player_cond_upcard (dealer_hand dealer_hand' : list Card) :
  getitem dealer_hand 0 = getitem dealer_hand' 0 ->
  forall s, player_cond strategy dealer_hand s
            = player_cond strategy dealer_hand' s.
Proof. intros Heq [ [self st] ph ]. unfold player_cond. rewrite Heq. reflexivity. Qed.

Lemma while_cond_ext {S : Type} (cond cond' : S -> result (bool * S))
    (body : S -> result S) :
  (forall s, cond s = cond' s) ->
  forall fuel s, while fuel cond body s = while fuel cond' body s.
Proof.
  intros Heq fuel. induction fuel as [ | fuel IH ]; intros s; [ reflexivity | ].
  cbn [while]. rewrite Heq.
  destruct (cond' s) as [ [ [ | ] s1 ] | | ]; cbn [bind]; auto.
  destruct (body s1); cbn [bind]; auto.
Qed.

Lemma player_turn_upcard (dealer_hand dealer_hand' : list Card)
    (self : BlackjackGame) (st : St) (player_hand : list Card) :
  getitem dealer_hand 0 = getitem dealer_hand' 0 ->
  player_turn strategy self st player_hand dealer_hand
  = player_turn strategy self st player_hand dealer_hand'.
Proof.
  intros Heq. unfold player_turn.
  apply while_cond_ext, player_cond_upcard, Heq.
Qed.

Lemma deal_hands_four (self : BlackjackGame) (rest : list Card)
    (p1 p2 d1 d2 : Card) :
  cards self = rest ++ [d2; d1; p2; p1] ->
  deal_hands self = Ok (set_cards self rest, [p1; p2], [d1; d2]).
Proof.
  intros Hc. unfold deal_hands.
  rewrite (deal_card_snoc self (rest ++ [d2; d1; p2]) p1)
    by (rewrite Hc, <- app_assoc; reflexivity).
  cbn [bind].
  rewrite (deal_card_snoc _ (rest ++ [d2; d1]) p2)
    by (cbn [set_cards cards]; rewrite <- app_assoc; reflexivity).
  cbn [bind].
  rewrite (deal_card_snoc _ (rest ++ [d2]) d1)
    by (cbn [set_cards cards]; rewrite <- app_assoc; reflexivity).
  cbn [bind].
  rewrite (deal_card_snoc _ rest d2) by reflexivity.
  reflexivity.
Qed.

(** What the recorder has noted after a finished player turn: the
    upcard in every call, and each time a hand between the initial and
    the final one. *)
Lemma recording_calls (dealer_hand : list Card) (upcard : Card)
    (self : BlackjackGame) :
  getitem dealer_hand 0 = Ok upcard ->
  forall st log player_hand self' st' log' player_hand',
    player_turn (recording strategy) self (st, log) player_hand dealer_hand
    = Ok (self', (st', log'), player_hand') ->
    exists calls,
      log' = log ++ calls
      /\ Forall (fun call =>
                   snd call = upcard
                   /\ player_hand `prefix_of` fst call
                   /\ fst call `prefix_of` player_hand') calls.
Proof.
  intros Hup. induction self as [ self IH ] using deck_ind.
  intros st log player_hand self' st' log' player_hand'.
  rewrite player_turn_unfold, Hup. cbn [bind].
  unfold recording at 1. cbn [fst snd].
  destruct (strategy st player_hand upcard) as [ [ [ | ] st1 ] | | ];
    cbn [bind]; try discriminate.
  - destruct (deal_card self) as [ [c self1] | | ] eqn:Hok; cbn [bind];
      try discriminate.
    intros Hrun.
    destruct (IH c self1 eq_refl _ _ _ _ _ _ _ Hrun) as (calls & -> & Hcalls).
    exists ((player_hand, upcard) :: calls).
    split; [ rewrite <- app_assoc; reflexivity | ].
    assert (Hext : player_hand ++ [c] `prefix_of` player_hand').
    { destruct (player_turn_Ok (recording strategy) dealer_hand self1
                  _ _ _ _ _ Hrun) as (drawn & _ & _ & _ & -> & _).
      apply prefix_app_r. reflexivity. }
    constructor.
    + cbn [fst snd]. repeat split; [ reflexivity | ].
      etransitivity; [ apply prefix_app_r; reflexivity | exact Hext ].
    + eapply Forall_impl; [ exact Hcalls | ].
      intros [h u] (Hu & Hpre & Hpost). cbn [fst snd] in *.
      repeat split; auto.
      etransitivity; [ apply prefix_app_r; reflexivity | exact Hpre ].
  - intros [= <- <- <- <-].
    exists [(player_hand, upcard)]. split; [ reflexivity | ].
    constructor; [ | constructor ]. cbn [fst snd]. repeat split; reflexivity.
Qed.

End PlayerTurn.

(** C5. The player's loop asks the strategy, and on every hit takes the
    last card of the deck onto the hand and asks again, whatever the hand
    is worth.  It ends normally only on the strategy's answer to stand,
    with the cards taken from the deck appended to the hand.  A strategy
    that hits on every hand above 21 takes every card of the deck, one
    after the other, and the turn ends when [deal_card] raises on the
    empty deck. *)
Theorem player_turn_trusts_strategy {St : Type} (strategy : Strategy St)
    (Hterm : forall st h u, strategy st h u <> OutOfFuel)
    (self : BlackjackGame) (st : St) (player_hand dealer_hand : list Card) :
  player_turn strategy self st player_hand dealer_hand
  = (let* upcard := getitem dealer_hand 0 in
     let* '(hit, st') := strategy st player_hand upcard in
     if hit : bool
     then let* '(c, self') := deal_card self in
          player_turn strategy self' st' (player_hand ++ [c]) dealer_hand
     else Ok (self, st', player_hand))
  /\ (forall rest c upcard st',
        getitem dealer_hand 0 = Ok upcard ->
        strategy st player_hand upcard = Ok (true, st') ->
        cards self = rest ++ [c] ->
        player_turn strategy self st player_hand dealer_hand
        = player_turn strategy (set_cards self rest) st' (player_hand ++ [c])
            dealer_hand)
  /\ player_turn strategy self st player_hand dealer_hand <> OutOfFuel
  /\ (forall self' st' player_hand',
        player_turn strategy self st player_hand dealer_hand
        = Ok (self', st', player_hand') ->
        exists drawn st0 upcard,
          dealt self drawn self'
          /\ cards self = cards self' ++ rev drawn
          /\ player_hand' = player_hand ++ drawn
          /\ getitem dealer_hand 0 = Ok upcard
          /\ strategy st0 player_hand' upcard = Ok (false, st'))
  /\ (forall upcard v,
        getitem dealer_hand 0 = Ok upcard ->
        (forall st h u v,
            calculate_hand_value h = Ok v -> 21 < v ->
            exists st', strategy st h u = Ok (true, st')) ->
        well_formed (cards self) -> well_formed player_hand ->
        calculate_hand_value player_hand = Ok v -> 21 < v ->
        (forall rest drawn,
            cards self = rest ++ drawn ->
            exists st' v',
              player_turn strategy self st player_hand dealer_hand
              = player_turn strategy (set_cards self rest) st'
                  (player_hand ++ rev drawn) dealer_hand
              /\ calculate_hand_value (player_hand ++ rev drawn) = Ok v'
              /\ 21 < v')
        /\ player_turn strategy self st player_hand dealer_hand
           = Raise IndexError).
Proof.
  split; [ | split; [ | split; [ | split ] ] ].
  - apply player_turn_unfold.
  - intros rest c upcard st' Hup Hhit Hc.
    eapply player_turn_hit; eassumption.
  - apply player_turn_fuel, Hterm.
  - intros self' st' player_hand' Hrun.
    destruct (player_turn_Ok strategy _ _ _ _ _ _ _ Hrun)
      as (drawn & st0 & upcard & Hd & Hph & Hup & Hlast).
    exists drawn, st0, upcard.
    split; [ exact Hd | ].
    split; [ exact (proj1 (dealt_cards _ _ _ Hd)) | auto ].
  - intros upcard v Hup Hhit Hdeck Hwf Hv Hbust. split.
    + intros rest drawn Hc.
      eapply (hits_past_21_cards strategy dealer_hand upcard Hup Hhit drawn);
        try eassumption.
      unfold well_formed in Hdeck. rewrite Hc in Hdeck.
      apply Forall_app in Hdeck as [_ Hdrawn]. exact Hdrawn.
    + eapply hits_past_21; eassumption.
Qed.

Lemma player_turn_trusts_strategy_witness :
  ((forall st h u, hit_twice st h u <> OutOfFuel)
   /\ calculate_hand_value ["K"; "Q"; "2"] = Ok 22
   /\ player_turn hit_twice (game_of ["3"; "5"; "9"]) O ["K"; "Q"; "2"] ["7"; "8"]
      = Ok (game_of ["3"], 3%nat, ["K"; "Q"; "2"; "9"; "5"]))
  /\ ((forall st h u, always_hit st h u <> OutOfFuel)
      /\ (exists st',
            player_turn always_hit (game_of ["5"; "9"]) tt ["K"; "Q"; "2"] ["7"; "8"]
            = player_turn always_hit (game_of []) st'
                ["K"; "Q"; "2"; "9"; "5"] ["7"; "8"])
      /\ player_turn always_hit (game_of ["5"; "9"]) tt ["K"; "Q"; "2"] ["7"; "8"]
         = Raise IndexError).
Proof.
  assert (Hwf : forall l, bool_decide (Forall (fun c => c ∈ RANKS) l) = true ->
                          well_formed l)
    by (intros l H; apply bool_decide_eq_true in H; exact H).
  split.
  - assert (Hterm : forall st h u, hit_twice st h u <> OutOfFuel)
      by (intros st h u; discriminate).
    split; [ exact Hterm | split; [ reflexivity | ] ].
    destruct (player_turn_trusts_strategy hit_twice Hterm
                (game_of ["3"; "5"; "9"]) O ["K"; "Q"; "2"] ["7"; "8"])
      as (_ & Hstep & _).
    rewrite (Hstep ["3"; "5"] "9" "7" 1%nat eq_refl eq_refl eq_refl).
    reflexivity.
  - assert (Hterm : forall st h u, always_hit st h u <> OutOfFuel)
      by (intros st h u; discriminate).
    split; [ exact Hterm | ].
    destruct (player_turn_trusts_strategy always_hit Hterm
                (game_of ["5"; "9"]) tt ["K"; "Q"; "2"] ["7"; "8"])
      as (_ & _ & _ & _ & Hpast).
    destruct (Hpast "7" 22) as [Hcards Hraise]; try reflexivity; try lia.
    + intros st h u v _ _. exists tt. destruct st. reflexivity.
    + apply Hwf. vm_compute. reflexivity.
    + apply Hwf. vm_compute. reflexivity.
    + split; [ | exact Hraise ].
      destruct (Hcards [] ["5"; "9"] eq_refl) as (st' & _ & Hrun & _).
      exists st'. exact Hrun.
Defined.

(** C6. At every decision the strategy is called with the player's hand
    and the dealer's first card; the dealer's second card reaches it
    nowhere: two deals that differ in that card only end the player's
    turn with the same hand, the same strategy state and the same deck,
    or with the same error. *)
Theorem strategy_sees_only_upcard {St : Type} (strategy : Strategy St)
    (self : BlackjackGame) (st : St) (rest : list Card)
    (p1 p2 d1 d2 d2' : Card)
    (Hdeck : cards self = rest ++ [d2; d1; p2; p1]) :
  (forall g s ph,
      player_cond strategy [d1; d2] (g, s, ph)
      = (let* '(hit, s') := strategy s ph d1 in Ok (hit, (g, s', ph))))
  /\ play_player strategy self st
     = (let* '(g, s, ph) :=
          player_turn strategy (set_cards self rest) st [p1; p2] [d1; d2] in
        Ok (g, s, ph, [d1; d2]))
  /\ (forall g s log ph dh,
        play_player (recording strategy) self (st, []) = Ok (g, (s, log), ph, dh) ->
        Forall (fun call =>
                  snd call = d1
                  /\ [p1; p2] `prefix_of` fst call
                  /\ fst call `prefix_of` ph) log)
  /\ (let* '(g, s, ph, _) := play_player strategy self st in Ok (g, s, ph))
     = (let* '(g, s, ph, _) :=
          play_player strategy (set_cards self (rest ++ [d2'; d1; p2; p1])) st in
        Ok (g, s, ph)).
Proof.
  split; [ | split; [ | split ] ].
  - intros g s ph. reflexivity.
  - unfold play_player. rewrite (deal_hands_four self rest p1 p2 d1 d2 Hdeck).
    reflexivity.
  - intros g s log ph dh. unfold play_player.
    rewrite (deal_hands_four self rest p1 p2 d1 d2 Hdeck). cbn [bind].
    destruct (player_turn _ _ _ _ _) as [ [ [g1 [s1 log1] ] ph1 ] | | ] eqn:Hrun;
      cbn [bind]; try discriminate.
    intros [= <- <- <- <- <-].
    destruct (recording_calls strategy [d1; d2] d1 _ eq_refl _ _ _ _ _ _ _ Hrun)
      as (calls & -> & Hcalls).
    exact Hcalls.
  - unfold play_player.
    rewrite (deal_hands_four self rest p1 p2 d1 d2 Hdeck).
    rewrite (deal_hands_four (set_cards self (rest ++ [d2'; d1; p2; p1]))
               rest p1 p2 d1 d2' eq_refl).
    cbn [bind].
    change (set_cards (set_cards self (rest ++ [d2'; d1; p2; p1])) rest)
      with (set_cards self rest).
    rewrite (player_turn_upcard strategy [d1; d2] [d1; d2'] _ _ _ eq_refl).
    destruct (player_turn _ _ _ _ _) as [ [ [g1 s1] ph1 ] | | ]; reflexivity.
Qed.

Lemma strategy_sees_only_upcard_witness :
  cards (game_of ["3"; "8"; "9"; "4"; "5"; "6"]) = ["3"; "8"] ++ ["9"; "4"; "5"; "6"]
  /\ play_player basic_strategy (game_of ["3"; "8"; "9"; "4"; "5"; "6"]) tt
     = Ok (game_of ["3"], tt, ["6"; "5"; "8"], ["4"; "9"])
  /\ (let* '(g, s, ph, _) :=
        play_player basic_strategy (game_of ["3"; "8"; "9"; "4"; "5"; "6"]) tt in
      Ok (g, s, ph))
     = (let* '(g, s, ph, _) :=
          play_player basic_strategy (game_of ["3"; "8"; "K"; "4"; "5"; "6"]) tt in
        Ok (g, s, ph)).
Proof.
  pose (Hdeck := eq_refl
          : cards (game_of ["3"; "8"; "9"; "4"; "5"; "6"])
            = ["3"; "8"] ++ ["9"; "4"; "5"; "6"]).
  split; [ exact Hdeck | split; [ reflexivity | ] ].
  exact (proj2 (proj2 (proj2
           (strategy_sees_only_upcard basic_strategy
              (game_of ["3"; "8"; "9"; "4"; "5"; "6"]) tt ["3"; "8"]
              "6" "5" "4" "9" "K" Hdeck)))).
Defined.

(** ** A round and the experiment *)

Section Experiment.

Context {St : Type} (strategy : Strategy St).

Lemma verdict_cases (pv dv : Z) :
  verdict pv dv = "win" \/ verdict pv dv = "lose" \/ verdict pv dv = "draw".
Proof.
  unfold verdict.
  destruct (21 <? pv); auto.
  destruct ((21 <? dv) || (dv <? pv)); auto.
  destruct (pv <? dv); auto.
Qed.

Lemma dealt_app (self self1 self2 : BlackjackGame) (d1 d2 : list Card) :
  dealt self d1 self1 -> dealt self1 d2 self2 -> dealt self (d1 ++ d2) self2.
Proof.
  intros H1 H2. induction H2 as [ | d2 s1 s2 c _ IH Hc ].
  - rewrite app_nil_r. exact H1.
  - rewrite app_assoc. eapply dealt_more; eassumption.
Qed.

Lemma deal_hands_Ok (self self' : BlackjackGame) (ph dh : list Card) :
  deal_hands self = Ok (self', ph, dh) ->
  dealt self (ph ++ dh) self' /\ length ph = 2%nat /\ length dh = 2%nat.
Proof.
  unfold deal_hands.
  destruct (deal_card self) as [ [c1 g1] | | ] eqn:H1; cbn [bind]; try discriminate.
  destruct (deal_card g1) as [ [c2 g2] | | ] eqn:H2; cbn [bind]; try discriminate.
  destruct (deal_card g2) as [ [c3 g3] | | ] eqn:H3; cbn [bind]; try discriminate.
  destruct (deal_card g3) as [ [c4 g4] | | ] eqn:H4; cbn [bind]; try discriminate.
  intros [= <- <- <-]. repeat split.
  eapply dealt_first; [ exact H1 | ].
  eapply dealt_first; [ exact H2 | ].
  eapply dealt_first; [ exact H3 | ].
  eapply dealt_first; [ exact H4 | ].
  constructor.
Qed.

(** A finished round dealt the two hands from the deck, in the order
    initial deal, player's cards, dealer's cards, and answered with one
    of the three outcomes. *)
Lemma play_hands_Ok (self self' : BlackjackGame) (st st' : St)
    (ph dh : list Card) :
  play_hands strategy self st = Ok (self', st', ph, dh) ->
  exists p0 d0 pd dd,
    ph = p0 ++ pd /\ dh = d0 ++ dd
    /\ length p0 = 2%nat /\ length d0 = 2%nat
    /\ dealt self (p0 ++ d0 ++ pd ++ dd) self'
    /\ exists v, calculate_hand_value dh = Ok v /\ 17 <= v.
Proof.
  unfold play_hands, play_player.
  destruct (deal_hands self) as [ [ [g0 p0] d0 ] | | ] eqn:Hdeal; cbn [bind];
    try discriminate.
  destruct (player_turn strategy g0 st p0 d0) as [ [ [g1 st1] ph1 ] | | ] eqn:Hp;
    cbn [bind]; try discriminate.
  destruct (dealer_turn g1 d0) as [ [g2 dh2] | | ] eqn:Hd; cbn [bind];
    try discriminate.
  intros [= <- <- <- <-].
  apply deal_hands_Ok in Hdeal as (Hdeal & Hp0 & Hd0).
  apply player_turn_Ok in Hp as (pd & _ & _ & Hpd & -> & _).
  apply dealer_turn_Ok in Hd as (dd & v & Hdd & -> & Hv & Hge & _).
  exists p0, d0, pd, dd. repeat split; auto; [ | eauto ].
  rewrite app_assoc. eapply dealt_app; [ exact Hdeal | ].
  eapply dealt_app; eassumption.
Qed.

Lemma play_Ok (self self' : BlackjackGame) (st st' : St) (outcome : string) :
  play strategy self st = Ok (outcome, self', st') ->
  (outcome = "win" \/ outcome = "lose" \/ outcome = "draw")
  /\ exists drawn, dealt self drawn self' /\ (4 <= length drawn)%nat.
Proof.
  unfold play.
  destruct (play_hands strategy self st) as [ [ [ [g s] ph ] dh ] | | ] eqn:Hh;
    cbn [bind]; try discriminate.
  unfold determine_winner.
  destruct (calculate_hand_value ph) as [ pv | | ]; cbn [bind]; try discriminate.
  destruct (calculate_hand_value dh) as [ dv | | ]; cbn [bind]; try discriminate.
  intros [= <- <- <-]. split; [ apply verdict_cases | ].
  apply play_hands_Ok in Hh as (p0 & d0 & pd & dd & _ & _ & Hp0 & Hd0 & Hd & _).
  eexists; split; [ exact Hd | ].
  rewrite !length_app. lia.
Qed.



(** [results[outcome] += 1] on the three counters. *)
Lemma dict_incr_stats (w l d : Z) (outcome : string) :
  outcome = "win" \/ outcome = "lose" \/ outcome = "draw" ->
  dict_incr {[ "win" := w; "lose" := l; "draw" := d ]} outcome
  = Ok {[ "win" := (if String.eqb outcome "win" then 1 else 0) + w;
          "lose" := (if String.eqb outcome "lose" then 1 else 0) + l;
          "draw" := (if String.eqb outcome "draw" then 1 else 0) + d ]}.
Proof.
  intros [-> | [-> | ->] ]; unfold dict_incr; simplify_map_eq; cbn [String.eqb Ascii.eqb Bool.eqb];
    f_equal; apply map_eq; intros k;
    repeat (first [ rewrite lookup_insert | rewrite lookup_singleton ];
            case_decide; simplify_eq; try (f_equal; lia));
    try reflexivity.
Qed.


Lemma reset_fresh (self : BlackjackGame) (r : RandomState) :
  fresh (n_card_decks self) (fst (reset self r))
  /\ n_card_decks (fst (reset self r)) = n_card_decks self.
Proof.
  split; [ apply fresh_reset; reflexivity | ].
  unfold reset. destruct (shuffle _ r). reflexivity.
Qed.


End Experiment.



(** ** Configurations the program does not check *)

(** C9, as the program behaves: with zero decks the constructor returns a
    game with an empty deck, and an experiment of minus one round returns
    the three zero counters; neither raises. *)
Lemma invalid_configuration_accepted :
  __init__ 0 true zeros
  = ({| n_card_decks := 0; logging := true; cards := [] |}, zeros)
  /\ experiment basic_strategy (-1) one_deck tt zeros
     = Ok ({[ "win" := 0; "lose" := 0; "draw" := 0 ]}, one_deck, tt, zeros)
  /\ ~ fails (experiment basic_strategy (-1) one_deck tt zeros).
Proof.
  split; [ reflexivity | ]. split; [ reflexivity | ].
  intros [e He]. discriminate He.
Qed.

(** C9, amended. The constructor takes any number of decks: for
    [n <= 0] the deck is empty and the generator is not used.  An
    experiment with negative [n_runs] plays no round and returns the
    three counters at zero, the game and the generator as they were. *)
Theorem invalid_configuration_unchecked {St : Type} (strategy : Strategy St)
    (n n_runs : Z) (Hdecks : n <= 0) (Hruns : n_runs < 0)
    (log : bool) (self : BlackjackGame) (st : St) (r : RandomState) :
  __init__ n log r = ({| n_card_decks := n; logging := log; cards := [] |}, r)
  /\ experiment strategy n_runs self st r
     = Ok ({[ "win" := 0; "lose" := 0; "draw" := 0 ]}, self, st, r).
Proof.
  split.
  - unfold __init__, list_mul.
    replace (Z.to_nat n) with O by lia. reflexivity.
  - unfold experiment.
    replace (Z.to_nat n_runs) with O by lia. reflexivity.
Qed.

Lemma invalid_configuration_unchecked_witness :
  -2 <= 0 /\ -5 < 0
  /\ __init__ (-2) false counting
     = ({| n_card_decks := -2; logging := false; cards := [] |}, counting)
  /\ experiment always_hit (-5) one_deck tt counting
     = Ok ({[ "win" := 0; "lose" := 0; "draw" := 0 ]}, one_deck, tt, counting).
Proof.
  pose (Hd := ltac:(lia) : -2 <= 0).
  pose (Hr := ltac:(lia) : -5 < 0).
  split; [ exact Hd | split; [ exact Hr | ] ].
  exact (invalid_configuration_unchecked always_hit (-2) (-5) Hd Hr
           false one_deck tt counting).
Defined.

(** ** More on the hand evaluator *)

Section HandValueMore.

Lemma py_int_cases (c : Card) :
  (exists n, py_int c = Ok n) \/ py_int c = Raise ValueError.
Proof.
  unfold py_int.
  destruct (match strip (list_ascii_of_string c) with [] => _ | _ :: _ => _ end)
    as [sign ds].
  destruct (digits ds 0 false); eauto.
Qed.

(** One card of the [for] loop. *)
Lemma sum_cards_cons (c : Card) (rest : list Card) (value : Z) (aces : nat) :
  sum_cards (c :: rest) value aces
  = if str_in c ["J"; "Q"; "K"] then sum_cards rest (value + 10) aces
    else if String.eqb c "A" then sum_cards rest (value + 11) (S aces)
    else let* n := py_int c in sum_cards rest (value + n) aces.
Proof. reflexivity. Qed.

Lemma sum_cards_perm (h h' : list Card) :
  h ≡ₚ h' -> forall value aces, sum_cards h value aces = sum_cards h' value aces.
Proof.
  induction 1 as [ | c l l' _ IH | x y l | l l' l'' _ IH1 _ IH2 ];
    intros value aces.
  - reflexivity.
  - rewrite !sum_cards_cons.
    destruct (str_in c ["J"; "Q"; "K"]); [ apply IH | ].
    destruct (String.eqb c "A"); [ apply IH | ].
    destruct (py_int c); cbn [bind]; auto.
  - cbn [sum_cards].
    destruct (py_int_cases x) as [ [nx Hx] | Hx ],
             (py_int_cases y) as [ [ny Hy] | Hy ]; rewrite ?Hx, ?Hy;
      destruct (str_in x ["J"; "Q"; "K"]), (str_in y ["J"; "Q"; "K"]),
               (String.eqb x "A"), (String.eqb y "A");
      cbn [bind]; rewrite ?Hx, ?Hy; cbn [bind];
      try reflexivity; f_equal; lia.
  - rewrite IH1. apply IH2.
Qed.

(** The loop fails exactly on a card that is neither a word card nor a
    number, and then with [ValueError]. *)
Lemma sum_cards_result (hand : list Card) :
  forall value aces,
    (Forall (fun c => word_card c = true \/ exists n, py_int c = Ok n) hand
     /\ exists value' aces', sum_cards hand value aces = Ok (value', aces'))
    \/ (Exists (fun c => word_card c = false /\ py_int c = Raise ValueError) hand
        /\ sum_cards hand value aces = Raise ValueError).
Proof.
  induction hand as [ | c rest IH ]; intros value aces.
  - left. split; [ constructor | eauto ].
  - rewrite sum_cards_cons.
    assert (Hword : word_card c
                    = (str_in c ["J"; "Q"; "K"] || String.eqb c "A")%bool).
    { unfold word_card, str_in. cbn [existsb]. rewrite !orb_false_r, !orb_assoc.
      reflexivity. }
    destruct (str_in c ["J"; "Q"; "K"]) eqn:Hface; cbn [orb] in Hword.
    { destruct (IH (value + 10) aces) as [ [Hall Hok] | [Hex Hr] ];
        [ left | right ]; split; auto. }
    destruct (String.eqb c "A") eqn:Hace.
    { destruct (IH (value + 11) (S aces)) as [ [Hall Hok] | [Hex Hr] ];
        [ left | right ]; split; auto. }
    destruct (py_int_cases c) as [ [n Hn] | Hn ]; rewrite Hn; cbn [bind].
    + destruct (IH (value + n) aces) as [ [Hall Hok] | [Hex Hr] ];
        [ left | right ]; split; eauto.
    + right. split; [ | reflexivity ]. apply Exists_cons_hd. auto.
Qed.

End HandValueMore.

(** X1. The value of a hand does not depend on the order of its cards:
    two hands with the same cards evaluate alike, errors included. *)
Theorem hand_value_order_free (hand hand' : list Card) (Hperm : hand ≡ₚ hand') :
  calculate_hand_value hand = calculate_hand_value hand'
  /\ blackjack_strategies.calculate_hand_value hand
     = blackjack_strategies.calculate_hand_value hand'.
Proof.
  assert (H : calculate_hand_value hand = calculate_hand_value hand').
  { unfold calculate_hand_value. rewrite (sum_cards_perm _ _ Hperm). reflexivity. }
  split; [ exact H | ].
  assert (Hsame : forall h, blackjack_strategies.calculate_hand_value h
                            = calculate_hand_value h).
  { intros h. unfold blackjack_strategies.calculate_hand_value, calculate_hand_value.
    assert (Hs : forall v a, blackjack_strategies.sum_cards h v a = sum_cards h v a).
    { induction h as [ | c rest IH ]; intros v a; [ reflexivity | ].
      cbn [blackjack_strategies.sum_cards sum_cards].
      repeat case_match; cbn [bind]; auto. }
    rewrite Hs. destruct (sum_cards h 0 O) as [ [v a] | | ]; cbn [bind]; auto. }
  rewrite !Hsame. exact H.
Qed.

Lemma hand_value_order_free_witness :
  ["A"; "9"; "5"] ≡ₚ ["5"; "A"; "9"]
  /\ calculate_hand_value ["A"; "9"; "5"] = calculate_hand_value ["5"; "A"; "9"].
Proof.
  assert (Hperm : ["A"; "9"; "5"] ≡ₚ ["5"; "A"; "9"]).
  { etransitivity; [ apply perm_skip, perm_swap | apply perm_swap ]. }
  split; [ exact Hperm | ].
  exact (proj1 (hand_value_order_free _ _ Hperm)).
Defined.

(** X2. On cards that are ASCII text of at most 4300 characters, the
    evaluator takes 'J', 'Q', 'K' and 'A' as they are and every other
    card through [int]: it returns a value exactly when every other card
    is a decimal number, and otherwise raises [ValueError] and nothing
    else.  It does not check that a number is a rank. *)
Theorem hand_value_errors (hand : list Card) (Htext : Forall plain_text hand) :
  ((exists v, calculate_hand_value hand = Ok v)
   <-> Forall (fun c => word_card c = true \/ exists n, py_int c = Ok n) hand)
  /\ (calculate_hand_value hand = Raise ValueError
      <-> Exists (fun c => word_card c = false /\ py_int c = Raise ValueError) hand)
  /\ (forall e, calculate_hand_value hand = Raise e -> e = ValueError)
  /\ calculate_hand_value hand <> OutOfFuel.
Proof.
  clear Htext. unfold calculate_hand_value.
  destruct (sum_cards_result hand 0 O)
    as [ [Hall (v & a & Hok)] | [Hex Hr] ].
  - rewrite Hok. cbn [bind]. repeat split; eauto; try discriminate.
    intros Hex. exfalso.
    apply Exists_exists in Hex as (c & Hc & Hw & Hi).
    rewrite Forall_forall in Hall. destruct (Hall c Hc) as [ Hw' | [n Hn] ];
      congruence.
  - rewrite Hr. cbn [bind]. repeat split; eauto; try discriminate.
    + intros [v Hv]. discriminate.
    + intros Hall. exfalso.
      apply Exists_exists in Hex as (c & Hc & Hw & Hi).
      rewrite Forall_forall in Hall. destruct (Hall c Hc) as [ Hw' | [n Hn] ];
        congruence.
    + intros e [= <-]. reflexivity.
Qed.

Lemma hand_value_errors_witness :
  Forall plain_text ["K"; " 12"; "A"; "-3"]
  /\ Forall plain_text ["K"; "a"]
  /\ calculate_hand_value ["K"; " 12"; "A"; "-3"] = Ok 20
  /\ calculate_hand_value ["K"; "a"] = Raise ValueError.
Proof.
  assert (H1 : Forall plain_text ["K"; " 12"; "A"; "-3"]).
  { repeat constructor; cbn; lia. }
  assert (H2 : Forall plain_text ["K"; "a"]).
  { repeat constructor; cbn; lia. }
  split; [ exact H1 | split; [ exact H2 | ] ].
  split.
  - destruct (proj2 (proj1 (hand_value_errors _ H1))) as [v Hv].
    + constructor; [ left; reflexivity | ].
      constructor; [ right; eexists; reflexivity | ].
      constructor; [ left; reflexivity | ].
      constructor; [ right; eexists; reflexivity | ].
      constructor.
    + rewrite Hv. f_equal. vm_compute in Hv. injection Hv as <-. reflexivity.
  - apply (proj2 (proj1 (proj2 (hand_value_errors _ H2)))).
    apply Exists_cons_tl, Exists_cons_hd. split; reflexivity.
Defined.

(** X3. A busted hand cannot be rescued: whatever well-formed cards are
    added to a well-formed hand worth more than 21, the value grows by at
    least one per card. *)
Theorem bust_is_final (hand extra : list Card) (v : Z)
    (Hwf : well_formed hand) (Hextra : well_formed extra)
    (Hv : calculate_hand_value hand = Ok v) (Hbust : 21 < v) :
  exists v',
    calculate_hand_value (hand ++ extra) = Ok v'
    /\ v + Z.of_nat (length extra) <= v'.
Proof.
  assert (Hwf' : well_formed (hand ++ extra)) by (apply Forall_app; auto).
  destruct (calculate_hand_value_hard hand Hwf) as (u & Hu & _ & Hhard & _).
  destruct (calculate_hand_value_hard _ Hwf') as (v' & Hv' & Hlow & _).
  rewrite Hu in Hv. injection Hv as ->.
  exists v'. split; [ exact Hv' | ].
  rewrite hand_total_low_app in Hlow.
  pose proof (hand_total_low_length extra Hextra).
  specialize (Hhard Hbust). lia.
Qed.

Lemma bust_is_final_witness :
  well_formed ["K"; "Q"; "2"] /\ well_formed ["A"; "3"]
  /\ calculate_hand_value ["K"; "Q"; "2"] = Ok 22 /\ 21 < 22
  /\ exists v', calculate_hand_value (["K"; "Q"; "2"] ++ ["A"; "3"]) = Ok v'
                /\ 22 + Z.of_nat (length ["A"; "3"]) <= v'.
Proof.
  assert (H1 : well_formed ["K"; "Q"; "2"]).
  { unfold well_formed, RANKS. repeat constructor;
      repeat (first [ apply list_elem_of_here | apply list_elem_of_further ]). }
  assert (H2 : well_formed ["A"; "3"]).
  { unfold well_formed, RANKS. repeat constructor;
      repeat (first [ apply list_elem_of_here | apply list_elem_of_further ]). }
  pose (H3 := eq_refl : calculate_hand_value ["K"; "Q"; "2"] = Ok 22).
  pose (H4 := ltac:(lia) : 21 < 22).
  repeat (split; [ assumption || exact H3 || exact H4 | ]).
  exact (bust_is_final ["K"; "Q"; "2"] ["A"; "3"] 22 H1 H2 H3 H4).
Defined.

(** X4. The resolver favours the house: when both hands are above 21
    the player loses, whichever side a hand is on.  When neither is, the
    verdict is antisymmetric: a win turns into a loss when the hands are
    exchanged, and a draw, which means equal values, stays a draw. *)
Theorem determine_winner_sides (player_hand dealer_hand : list Card) (pv dv : Z)
    (Hp : calculate_hand_value player_hand = Ok pv)
    (Hd : calculate_hand_value dealer_hand = Ok dv) :
  (21 < pv -> 21 < dv ->
   determine_winner player_hand dealer_hand = Ok "lose"
   /\ determine_winner dealer_hand player_hand = Ok "lose")
  /\ (pv <= 21 -> dv <= 21 ->
      (determine_winner player_hand dealer_hand = Ok "win"
       <-> determine_winner dealer_hand player_hand = Ok "lose")
      /\ (determine_winner player_hand dealer_hand = Ok "draw"
          <-> determine_winner dealer_hand player_hand = Ok "draw")
      /\ (determine_winner player_hand dealer_hand = Ok "draw" <-> pv = dv)).
Proof.
  unfold determine_winner. rewrite Hp, Hd. cbn [bind]. unfold verdict.
  split.
  - intros Hpb Hdb.
    rewrite (proj2 (Z.ltb_lt 21 pv) Hpb), (proj2 (Z.ltb_lt 21 dv) Hdb). auto.
  - intros Hpl Hdl.
    rewrite (proj2 (Z.ltb_ge 21 pv) Hpl), (proj2 (Z.ltb_ge 21 dv) Hdl).
    cbn [orb].
    destruct (Z.ltb_spec dv pv), (Z.ltb_spec pv dv); try lia;
      repeat split; intros; try discriminate; try reflexivity; try lia.
Qed.

Lemma determine_winner_sides_witness :
  calculate_hand_value ["K"; "Q"; "2"] = Ok 22
  /\ calculate_hand_value ["10"; "6"; "9"] = Ok 25
  /\ determine_winner ["K"; "Q"; "2"] ["10"; "6"; "9"] = Ok "lose"
  /\ determine_winner ["10"; "6"; "9"] ["K"; "Q"; "2"] = Ok "lose".
Proof.
  pose (Hp := eq_refl : calculate_hand_value ["K"; "Q"; "2"] = Ok 22).
  pose (Hd := eq_refl : calculate_hand_value ["10"; "6"; "9"] = Ok 25).
  split; [ exact Hp | split; [ exact Hd | ] ].
  apply (proj1 (determine_winner_sides _ _ 22 25 Hp Hd)); lia.
Defined.

(** ** More on a round *)

Section RoundMore.

Context {St : Type} (strategy : Strategy St).

(** Dealing changes the deck only: the other attributes stay. *)
Lemma dealt_frame (self self' : BlackjackGame) (drawn : list Card) :
  dealt self drawn self' -> self' = set_cards self (cards self').
Proof.
  induction 1 as [ | drawn self1 self2 c _ IH Hdeal ].
  - destruct self; reflexivity.
  - apply deal_card_Ok in Hdeal as [_ ->]. rewrite IH. reflexivity.
Qed.

Lemma dealt_well_formed (self self' : BlackjackGame) (drawn : list Card) :
  dealt self drawn self' -> well_formed (cards self) ->
  well_formed drawn /\ well_formed (cards self').
Proof.
  intros Hd Hwf. destruct (dealt_cards _ _ _ Hd) as [Hc _].
  unfold well_formed in *. rewrite Hc in Hwf.
  apply Forall_app in Hwf as [H1 H2]. split; [ | exact H1 ].
  rewrite <- (rev_involutive drawn). apply Forall_rev. exact H2.
Qed.

Lemma deal_hands_short (self : BlackjackGame) :
  (length (cards self) < 4)%nat -> deal_hands self = Raise IndexError.
Proof.
  intros Hlen. unfold deal_hands.
  destruct (deal_card_cases self) as [ (c1 & g1 & -> & H1 & _) | [-> _] ];
    [ cbn [bind] | reflexivity ].
  destruct (deal_card_cases g1) as [ (c2 & g2 & -> & H2 & _) | [-> _] ];
    [ cbn [bind] | reflexivity ].
  destruct (deal_card_cases g2) as [ (c3 & g3 & -> & H3 & _) | [-> _] ];
    [ cbn [bind] | reflexivity ].
  destruct (deal_card_cases g3) as [ (c4 & g4 & -> & H4 & _) | [-> _] ];
    [ cbn [bind] | reflexivity ].
  rewrite H1, H2, H3, H4, !length_app in Hlen. cbn [length] in Hlen. lia.
Qed.

Lemma strategies_value_same (hand : list Card) :
  blackjack_strategies.calculate_hand_value hand = calculate_hand_value hand.
Proof.
  unfold blackjack_strategies.calculate_hand_value, calculate_hand_value.
  assert (Hs : forall v a,
             blackjack_strategies.sum_cards hand v a = sum_cards hand v a).
  { induction hand as [ | c rest IH ]; intros v a; [ reflexivity | ].
    cbn [blackjack_strategies.sum_cards sum_cards].
    repeat case_match; cbn [bind]; auto. }
  rewrite Hs. destruct (sum_cards hand 0 O) as [ [v a] | | ]; cbn [bind]; auto.
Qed.

(** With the reference strategy the player's loop is the dealer's. *)
Lemma basic_turn (dealer_hand : list Card) (upcard : Card) :
  getitem dealer_hand 0 = Ok upcard ->
  forall self hand,
    player_turn basic_strategy self tt hand dealer_hand
    = map_result (fun '(g, h) => (g, tt, h)) (dealer_turn self hand).
Proof.
  intros Hup self. induction self as [ self IH ] using deck_ind. intros hand.
  rewrite player_turn_unfold, dealer_turn_unfold, Hup. cbn [bind].
  unfold basic_strategy, stateless, blackjack_strategies.basic.
  rewrite strategies_value_same.
  destruct (calculate_hand_value hand) as [ v | | ]; cbn [bind map_result];
    try reflexivity.
  destruct (v <? 17); [ | reflexivity ].
  destruct (deal_card self) as [ [c self'] | | ] eqn:Hok; cbn [bind];
    try reflexivity.
  apply (IH c self' eq_refl).
Qed.

(** The hand a finished dealer turn leaves is worth 17 to 26, unless it
    was worth more before the turn. *)
Lemma dealer_turn_bounds (self self' : BlackjackGame) (dh dh' : list Card) (v0 : Z) :
  well_formed (cards self) -> well_formed dh ->
  calculate_hand_value dh = Ok v0 ->
  dealer_turn self dh = Ok (self', dh') ->
  exists v, calculate_hand_value dh' = Ok v /\ 17 <= v <= Z.max v0 26.
Proof.
  intros Hdeck Hwf Hv0 Hrun.
  destruct (dealer_turn_Ok self dh self' dh' Hrun)
    as (drawn & v & Hd & -> & Hv & Hge & Hbelow).
  exists v. split; [ exact Hv | ]. split; [ exact Hge | ].
  destruct drawn as [ | c d' _ ] using rev_ind.
  - rewrite app_nil_r in Hv. rewrite Hv0 in Hv. injection Hv as ->. lia.
  - destruct (Hbelow (length d')) as (u & Hu & Hu17).
    { rewrite length_app. cbn. lia. }
    rewrite take_app_length in Hu.
    destruct (dealt_well_formed _ _ _ Hd Hdeck) as [Hdrawn _].
    apply Forall_app in Hdrawn as [Hd' Hc]. apply Forall_inv in Hc.
    assert (Hpre : well_formed (dh ++ d')) by (apply Forall_app; auto).
    assert (Hall : well_formed (dh ++ d' ++ [c])).
    { apply Forall_app. split; [ exact Hwf | ]. apply Forall_app. split; auto. }
    destruct (calculate_hand_value_hard _ Hpre) as (u' & Hu' & Hlow & _).
    destruct (calculate_hand_value_hard _ Hall) as (v' & Hv' & _ & Hhard & _).
    rewrite Hu in Hu'. injection Hu' as <-.
    rewrite Hv in Hv'. injection Hv' as <-.
    destruct (Z.le_gt_cases v 21) as [ | Hbust ]; [ lia | ].
    specialize (Hhard ltac:(lia)).
    rewrite app_assoc, hand_total_low_app in Hhard.
    pose proof (hand_total_low_rank c Hc). lia.
Qed.

Lemma two_cards_value (hand : list Card) :
  well_formed hand -> length hand = 2%nat ->
  exists v, calculate_hand_value hand = Ok v /\ 2 <= v <= 21.
Proof.
  intros Hwf Hlen.
  destruct (calculate_hand_value_hard hand Hwf) as (v & Hv & Hlow & Hhard & _).
  exists v. split; [ exact Hv | ].
  pose proof (hand_total_low_length hand Hwf) as Hmin.
  destruct hand as [ | a [ | b [ | ] ] ]; try discriminate.
  apply Forall_cons in Hwf as [Ha Hb]. apply Forall_inv in Hb.
  change [a; b] with ([a] ++ [b]) in *.
  rewrite hand_total_low_app in *.
  pose proof (hand_total_low_rank a Ha). pose proof (hand_total_low_rank b Hb).
  cbn [length] in Hmin.
  split; [ lia | ].
  destruct (Z.le_gt_cases v 21) as [ | Hbust ]; [ lia | ].
  specialize (Hhard ltac:(lia)). lia.
Qed.

End RoundMore.

(** X5. A round needs four cards: on a deck of fewer, [play] raises
    [IndexError] in the initial deal, whatever the strategy.  The
    experiment resets the deck after a round, not before the first: on
    such a game it raises as well as soon as one round is asked for. *)
Theorem play_needs_four_cards {St : Type} (strategy : Strategy St)
    (self : BlackjackGame) (st : St) (Hshort : (length (cards self) < 4)%nat) :
  play strategy self st = Raise IndexError
  /\ forall n_runs r,
      1 <= n_runs -> experiment strategy n_runs self st r = Raise IndexError.
Proof.
  assert (Hplay : play strategy self st = Raise IndexError).
  { unfold play, play_hands, play_player.
    rewrite (deal_hands_short self Hshort). reflexivity. }
  split; [ exact Hplay | ].
  intros n_runs r Hn. unfold experiment.
  destruct (Z.to_nat n_runs) as [ | k ] eqn:Hk; [ lia | ].
  cbn [experiment_loop]. rewrite Hplay. reflexivity.
Qed.

Lemma play_needs_four_cards_witness :
  (length (cards (game_of ["A"; "K"; "7"])) < 4)%nat
  /\ play always_hit (game_of ["A"; "K"; "7"]) tt = Raise IndexError.
Proof.
  assert (H : (length (cards (game_of ["A"; "K"; "7"])) < 4)%nat)
    by (cbn; lia).
  split; [ exact H | ].
  exact (proj1 (play_needs_four_cards always_hit _ tt H)).
Defined.

(** X6. A round moves cards and nothing else: when the two final hands
    are reached, the deck is an initial part of what it was, its other
    attributes are unchanged, and the cards that left it are exactly the
    cards of the two hands, at least two in each. *)
Theorem round_keeps_cards {St : Type} (strategy : Strategy St)
    (self self' : BlackjackGame) (st st' : St) (ph dh : list Card)
    (Hrun : play_hands strategy self st = Ok (self', st', ph, dh)) :
  cards self' `prefix_of` cards self
  /\ cards self ≡ₚ cards self' ++ ph ++ dh
  /\ self' = set_cards self (cards self')
  /\ (2 <= length ph)%nat /\ (2 <= length dh)%nat.
Proof.
  destruct (play_hands_Ok strategy _ _ _ _ _ _ Hrun)
    as (p0 & d0 & pd & dd & -> & -> & Hp0 & Hd0 & Hd & _).
  destruct (dealt_cards _ _ _ Hd) as [Hc _].
  split; [ rewrite Hc; apply prefix_app_r; reflexivity | ].
  split.
  - rewrite Hc. apply Permutation_app_head.
    rewrite <- Permutation_rev.
    rewrite <- !app_assoc. apply Permutation_app_head.
    rewrite !app_assoc. apply Permutation_app_tail, Permutation_app_comm.
  - split; [ eapply dealt_frame; exact Hd | ].
    rewrite !length_app. lia.
Qed.

Lemma round_keeps_cards_witness :
  play_hands basic_strategy (game_of ["7"; "5"; "3"; "8"; "9"; "4"; "K"; "6"]) tt
  = Ok (game_of ["7"], tt, ["6"; "K"; "8"], ["4"; "9"; "3"; "5"])
  /\ cards (game_of ["7"; "5"; "3"; "8"; "9"; "4"; "K"; "6"])
     ≡ₚ cards (game_of ["7"]) ++ ["6"; "K"; "8"] ++ ["4"; "9"; "3"; "5"].
Proof.
  pose (Hrun := eq_refl
          : play_hands basic_strategy
              (game_of ["7"; "5"; "3"; "8"; "9"; "4"; "K"; "6"]) tt
            = Ok (game_of ["7"], tt, ["6"; "K"; "8"], ["4"; "9"; "3"; "5"])).
  split; [ exact Hrun | ].
  exact (proj1 (proj2 (round_keeps_cards basic_strategy _ _ tt tt _ _ Hrun))).
Defined.

(** ** The reference strategy *)

Section Reference.

Lemma play_hands_inv {St : Type} (strategy : Strategy St)
    (self self' : BlackjackGame) (st st' : St) (ph dh : list Card) :
  play_hands strategy self st = Ok (self', st', ph, dh) ->
  exists g0 p0 d0 g1,
    deal_hands self = Ok (g0, p0, d0)
    /\ player_turn strategy g0 st p0 d0 = Ok (g1, st', ph)
    /\ dealer_turn g1 d0 = Ok (self', dh).
Proof.
  unfold play_hands, play_player.
  destruct (deal_hands self) as [ [ [g0 p0] d0 ] | | ] eqn:Hdeal; cbn [bind];
    try discriminate.
  destruct (player_turn strategy g0 st p0 d0) as [ [ [g1 st1] ph1 ] | | ] eqn:Hp;
    cbn [bind]; try discriminate.
  destruct (dealer_turn g1 d0) as [ [g2 dh2] | | ] eqn:Hd; cbn [bind];
    try discriminate.
  intros [= <- <- <- <-]. exists g0, p0, d0, g1. repeat split; auto.
Qed.

Lemma last_four {A : Type} (l : list A) :
  (4 <= length l)%nat -> exists rest a b c d, l = rest ++ [a; b; c; d].
Proof.
  intros Hlen.
  destruct l as [ | d l _ ] using rev_ind; [ cbn in Hlen; lia | ].
  destruct l as [ | c l _ ] using rev_ind; [ cbn in Hlen; lia | ].
  destruct l as [ | b l _ ] using rev_ind; [ cbn in Hlen; lia | ].
  destruct l as [ | a l _ ] using rev_ind; [ cbn in Hlen; lia | ].
  exists l, a, b, c, d. rewrite <- !app_assoc. reflexivity.
Qed.

(** The hit-below-17 loop ends by standing when the deck is long enough
    for the hand's hard total to reach 17, and takes no more cards than
    that needs. *)
Lemma dealer_turn_completes (self : BlackjackGame) :
  forall dh,
    well_formed (cards self) -> well_formed dh ->
    17 <= Z.of_nat (length (cards self)) + hand_total all_low dh ->
    exists self' dh',
      dealer_turn self dh = Ok (self', dh')
      /\ Z.of_nat (length (cards self)) - Z.of_nat (length (cards self'))
         <= Z.max 0 (17 - hand_total all_low dh).
Proof.
  induction self as [ self IH ] using deck_ind.
  intros dh Hdeck Hwf Hlen. rewrite dealer_turn_unfold.
  destruct (calculate_hand_value_hard dh Hwf) as (v & -> & Hlow & _).
  cbn [bind].
  destruct (Z.ltb_spec v 17) as [Hlt | Hge].
  - destruct (deal_card_cases self) as [ (c & g & Hok & Hc & _) | [_ Hnil] ].
    + rewrite Hok. cbn [bind].
      rewrite Hc in Hdeck. apply Forall_app in Hdeck as [Hg Hcwf].
      apply Forall_inv in Hcwf.
      pose proof (hand_total_low_rank c Hcwf) as Hcv.
      assert (Hlen' : length (cards self) = S (length (cards g)))
        by (rewrite Hc, length_app; cbn; lia).
      destruct (IH c g Hok (dh ++ [c])) as (self' & dh' & Hrun & Hused).
      * exact Hg.
      * apply Forall_app. split; [ exact Hwf | ].
        constructor; [ exact Hcwf | constructor ].
      * rewrite hand_total_low_app. lia.
      * exists self', dh'. split; [ exact Hrun | ].
        rewrite hand_total_low_app in Hused. lia.
    + rewrite Hnil in Hlen. cbn in Hlen. lia.
  - exists self, dh. split; [ reflexivity | lia ].
Qed.

Lemma well_formed_value (hand : list Card) :
  well_formed hand -> exists v, calculate_hand_value hand = Ok v.
Proof.
  intros Hwf. destruct (calculate_hand_value_hard hand Hwf) as (v & Hv & _).
  eauto.
Qed.

(** A round of the reference strategy on a deck of at least 34
    well-formed cards. *)
Lemma play_basic_Ok (self : BlackjackGame) :
  well_formed (cards self) -> (34 <= length (cards self))%nat ->
  exists outcome self',
    play basic_strategy self tt = Ok (outcome, self', tt)
    /\ (length (cards self) <= length (cards self') + 34)%nat.
Proof.
  intros Hdeck Hlen.
  destruct (last_four (cards self) ltac:(lia)) as (rest & d2 & d1 & p2 & p1 & Hc).
  pose proof Hdeck as Hall. unfold well_formed in Hall. rewrite Hc in Hall.
  apply Forall_app in Hall as [Hrest Hfour].
  rewrite !Forall_cons in Hfour.
  destruct Hfour as (Hd2 & Hd1 & Hp2 & Hp1 & _).
  assert (Hp : well_formed [p1; p2])
    by (unfold well_formed; rewrite !Forall_cons; auto using Forall_nil_2).
  assert (Hd : well_formed [d1; d2])
    by (unfold well_formed; rewrite !Forall_cons; auto using Forall_nil_2).
  assert (Hrl : length (cards self) = (length rest + 4)%nat)
    by (rewrite Hc, length_app; reflexivity).
  unfold play, play_hands, play_player.
  rewrite (deal_hands_four self rest p1 p2 d1 d2 Hc). cbn [bind].
  rewrite (basic_turn [d1; d2] d1 eq_refl).
  pose proof (hand_total_low_length _ Hp) as Hpl. cbn [length] in Hpl.
  pose proof (hand_total_low_length _ Hd) as Hdl. cbn [length] in Hdl.
  destruct (dealer_turn_completes (set_cards self rest) [p1; p2])
    as (g1 & ph & Hpt & Hpused); [ exact Hrest | exact Hp | cbn [set_cards cards]; lia | ].
  cbn [set_cards cards] in Hpused.
  rewrite Hpt. cbn [map_result bind].
  destruct (dealer_turn_Ok _ _ _ _ Hpt) as (pd & pv & Hpd & -> & Hpv & _).
  destruct (dealt_well_formed _ _ _ Hpd Hrest) as [Hpdwf Hg1].
  destruct (dealer_turn_completes g1 [d1; d2])
    as (g2 & dh & Hdt & Hdused); [ exact Hg1 | exact Hd | lia | ].
  rewrite Hdt. cbn [bind].
  destruct (dealer_turn_Ok _ _ _ _ Hdt) as (dd & dv & _ & -> & Hdv & _).
  unfold determine_winner. rewrite Hpv, Hdv. cbn [bind].
  eexists _, g2. split; [ reflexivity | lia ].
Qed.

Lemma fresh_ready (n : Z) (self : BlackjackGame) :
  1 <= n -> fresh n self ->
  well_formed (cards self) /\ (34 <= length (cards self))%nat.
Proof.
  intros Hn Hfresh. destruct (fresh_cards n self Hfresh) as [_ Hperm].
  split.
  - unfold well_formed. rewrite Hperm. unfold list_mul.
    apply Forall_repeat_list, CARD_DECK_well_formed.
  - rewrite Hperm. unfold list_mul. rewrite length_repeat_list.
    change (length CARD_DECK) with 52%nat. lia.
Qed.

Lemma experiment_loop_basic_Ok (k : nat) :
  forall self r w l d,
    1 <= n_card_decks self ->
    well_formed (cards self) -> (34 <= length (cards self))%nat ->
    exists stats self' r',
      experiment_loop basic_strategy k self tt r
        {[ "win" := w; "lose" := l; "draw" := d ]}
      = Ok (stats, self', tt, r').
Proof.
  induction k as [ | k IH ]; intros self r w l d Hn Hdeck Hlen;
    cbn [experiment_loop]; [ eauto | ].
  destruct (play_basic_Ok self Hdeck Hlen) as (o & g1 & Hplay & _).
  rewrite Hplay. cbn [bind].
  destruct (play_Ok basic_strategy _ _ _ _ _ Hplay) as (Ho & drawn & Hdrawn & _).
  rewrite (dict_incr_stats w l d o Ho). cbn [bind].
  destruct (reset_fresh g1 r) as [Hfresh Hn2].
  destruct (dealt_cards _ _ _ Hdrawn) as [_ Hn1].
  destruct (reset g1 r) as [g2 r2]. cbn [fst] in Hfresh, Hn2.
  assert (Hg1 : 1 <= n_card_decks g1) by lia.
  destruct (fresh_ready _ _ Hg1 Hfresh) as [Hwf2 Hlen2].
  apply IH; [ lia | exact Hwf2 | exact Hlen2 ].
Qed.

End Reference.

(** X7. Under the reference strategy the player plays the dealer's
    rule: the player's turn from a hand is the dealer's turn from the
    same hand on the same deck, whatever the upcard. *)
Theorem basic_plays_like_dealer (self : BlackjackGame)
    (hand dealer_hand : list Card) (upcard : Card)
    (Hup : getitem dealer_hand 0 = Ok upcard) :
  player_turn basic_strategy self tt hand dealer_hand
  = map_result (fun '(g, h) => (g, tt, h)) (dealer_turn self hand).
Proof. apply (basic_turn dealer_hand upcard Hup). Qed.

Lemma basic_plays_like_dealer_witness :
  getitem ["4"; "9"] 0 = Ok "4"
  /\ player_turn basic_strategy (game_of ["7"; "5"; "3"]) tt ["6"; "K"] ["4"; "9"]
     = map_result (fun '(g, h) => (g, tt, h))
         (dealer_turn (game_of ["7"; "5"; "3"]) ["6"; "K"]).
Proof.
  pose (Hup := eq_refl : getitem ["4"; "9"] 0 = Ok "4").
  split; [ exact Hup | ].
  exact (basic_plays_like_dealer (game_of ["7"; "5"; "3"]) ["6"; "K"] ["4"; "9"]
           "4" Hup).
Defined.

(** X8. On a deck of well-formed cards the dealer ends every round
    between 17 and 26, whatever the strategy; under the reference
    strategy so does the player. *)
Theorem final_values_bounded {St : Type} (strategy : Strategy St)
    (self self' : BlackjackGame) (st st' : St) (ph dh : list Card)
    (Hdeck : well_formed (cards self))
    (Hrun : play_hands strategy self st = Ok (self', st', ph, dh)) :
  (exists dv, calculate_hand_value dh = Ok dv /\ 17 <= dv <= 26)
  /\ forall g ph' dh',
      play_hands basic_strategy self tt = Ok (g, tt, ph', dh') ->
      exists pv, calculate_hand_value ph' = Ok pv /\ 17 <= pv <= 26.
Proof.
  assert (Hdealer : forall S (s : Strategy S) g a a' p d,
             play_hands s self a = Ok (g, a', p, d) ->
             exists g0 p0 d0 g1,
               deal_hands self = Ok (g0, p0, d0)
               /\ player_turn s g0 a p0 d0 = Ok (g1, a', p)
               /\ well_formed (cards g0) /\ well_formed p0
               /\ length p0 = 2%nat
               /\ exists dv, calculate_hand_value d = Ok dv /\ 17 <= dv <= 26).
  { intros S s g a a' p d Hr.
    destruct (play_hands_inv s _ _ _ _ _ _ Hr)
      as (g0 & p0 & d0 & g1 & Hdeal & Hpt & Hdt).
    destruct (deal_hands_Ok _ _ _ _ Hdeal) as (Hd0 & Hp2 & Hd2).
    destruct (dealt_well_formed _ _ _ Hd0 Hdeck) as [Hhands Hg0].
    apply Forall_app in Hhands as [Hp0 Hd0wf].
    destruct (player_turn_Ok s _ _ _ _ _ _ _ Hpt) as (pd & _ & _ & Hpd & _).
    destruct (dealt_well_formed _ _ _ Hpd Hg0) as [_ Hg1].
    destruct (two_cards_value d0 Hd0wf Hd2) as (v0 & Hv0 & Hv0r).
    destruct (dealer_turn_bounds _ _ _ _ _ Hg1 Hd0wf Hv0 Hdt) as (dv & Hdv & Hr').
    exists g0, p0, d0, g1. repeat split; auto.
    exists dv. split; [ exact Hdv | lia ]. }
  split.
  - destruct (Hdealer _ _ _ _ _ _ _ Hrun) as (_ & _ & _ & _ & _ & _ & _ & _ & _ & H).
    exact H.
  - intros g ph' dh' Hb.
    destruct (Hdealer _ _ _ _ _ _ _ Hb)
      as (g0 & p0 & d0 & g1 & Hdeal & Hpt & Hg0 & Hp0 & Hp2 & _).
    assert (Hup : exists up, getitem d0 0 = Ok up).
    { destruct (player_turn_Ok _ _ _ _ _ _ _ _ Hpt) as (_ & _ & up & _ & _ & Hup & _).
      eauto. }
    destruct Hup as [up Hup].
    rewrite (basic_turn d0 up Hup) in Hpt.
    destruct (dealer_turn g0 p0) as [ [g' h'] | | ] eqn:Hdt; try discriminate.
    cbn [map_result bind] in Hpt. injection Hpt as <- <-.
    destruct (two_cards_value p0 Hp0 Hp2) as (v0 & Hv0 & Hv0r).
    destruct (dealer_turn_bounds _ _ _ _ _ Hg0 Hp0 Hv0 Hdt) as (pv & Hpv & Hr').
    exists pv. split; [ exact Hpv | lia ].
Qed.

Lemma final_values_bounded_witness :
  well_formed (cards (game_of ["7"; "5"; "3"; "8"; "9"; "4"; "K"; "6"]))
  /\ play_hands basic_strategy (game_of ["7"; "5"; "3"; "8"; "9"; "4"; "K"; "6"]) tt
     = Ok (game_of ["7"], tt, ["6"; "K"; "8"], ["4"; "9"; "3"; "5"])
  /\ exists dv, calculate_hand_value ["4"; "9"; "3"; "5"] = Ok dv /\ 17 <= dv <= 26.
Proof.
  assert (Hwf : well_formed
                  (cards (game_of ["7"; "5"; "3"; "8"; "9"; "4"; "K"; "6"]))).
  { unfold well_formed, RANKS. cbn [cards game_of]. repeat constructor;
      repeat (first [ apply list_elem_of_here | apply list_elem_of_further ]). }
  pose (Hrun := eq_refl
          : play_hands basic_strategy
              (game_of ["7"; "5"; "3"; "8"; "9"; "4"; "K"; "6"]) tt
            = Ok (game_of ["7"], tt, ["6"; "K"; "8"], ["4"; "9"; "3"; "5"])).
  split; [ exact Hwf | split; [ exact Hrun | ] ].
  exact (proj1 (final_values_bounded basic_strategy _ _ tt tt _ _ Hwf Hrun)).
Defined.

(** X9. A round of the reference strategy always completes on a deck of
    at least 34 well-formed cards: it returns an outcome, raises nothing,
    and takes at most 34 cards. *)
Theorem play_basic_completes (self : BlackjackGame)
    (Hdeck : well_formed (cards self)) (Hlen : (34 <= length (cards self))%nat) :
  exists outcome self',
    play basic_strategy self tt = Ok (outcome, self', tt)
    /\ (outcome = "win" \/ outcome = "lose" \/ outcome = "draw")
    /\ (length (cards self) <= length (cards self') + 34)%nat.
Proof.
  destruct (play_basic_Ok self Hdeck Hlen) as (o & g & Hplay & Hused).
  exists o, g. split; [ exact Hplay | ]. split; [ | exact Hused ].
  exact (proj1 (play_Ok basic_strategy _ _ _ _ _ Hplay)).
Qed.

(** X10. With at least one deck configured and the reference strategy,
    an experiment started on a full enough deck never raises: for every
    [n_runs] it returns its counters. *)
Theorem experiment_basic_completes (self : BlackjackGame) (n_runs : Z)
    (r : RandomState)
    (Hn : 1 <= n_card_decks self)
    (Hdeck : well_formed (cards self)) (Hlen : (34 <= length (cards self))%nat) :
  exists stats self' r',
    experiment basic_strategy n_runs self tt r = Ok (stats, self', tt, r').
Proof. apply experiment_loop_basic_Ok; assumption. Qed.

Lemma well_formed_decide (hand : list Card) :
  bool_decide (Forall (fun c => c ∈ RANKS) hand) = true -> well_formed hand.
Proof. intros H. apply bool_decide_eq_true in H. exact H. Qed.

Lemma play_basic_completes_witness :
  well_formed (cards one_deck) /\ (34 <= length (cards one_deck))%nat
  /\ exists outcome self',
      play basic_strategy one_deck tt = Ok (outcome, self', tt)
      /\ (outcome = "win" \/ outcome = "lose" \/ outcome = "draw")
      /\ (length (cards one_deck) <= length (cards self') + 34)%nat.
Proof.
  assert (Hwf : well_formed (cards one_deck))
    by (apply well_formed_decide; vm_compute; reflexivity).
  assert (Hlen : (34 <= length (cards one_deck))%nat)
    by (vm_compute; repeat constructor).
  split; [ exact Hwf | split; [ exact Hlen | ] ].
  exact (play_basic_completes one_deck Hwf Hlen).
Defined.

Lemma experiment_basic_completes_witness :
  1 <= n_card_decks one_deck
  /\ well_formed (cards one_deck) /\ (34 <= length (cards one_deck))%nat
  /\ exists stats self' r',
      experiment basic_strategy 1000 one_deck tt counting
      = Ok (stats, self', tt, r').
Proof.
  assert (Hn : 1 <= n_card_decks one_deck) by (vm_compute; discriminate).
  assert (Hwf : well_formed (cards one_deck))
    by (apply well_formed_decide; vm_compute; reflexivity).
  assert (Hlen : (34 <= length (cards one_deck))%nat)
    by (vm_compute; repeat constructor).
  split; [ exact Hn | split; [ exact Hwf | split; [ exact Hlen | ] ] ].
  exact (experiment_basic_completes one_deck 1000 counting Hn Hwf Hlen).
Defined.

(** ** More on the experiment *)

Section ExperimentMore.

Context {St : Type} (strategy : Strategy St).

Lemma merge_stats_counters (w l d w0 l0 d0 : Z) :
  merge_stats {[ "win" := w; "lose" := l; "draw" := d ]}
              {[ "win" := w0; "lose" := l0; "draw" := d0 ]}
  = {[ "win" := w + w0; "lose" := l + l0; "draw" := d + d0 ]}.
Proof.
  unfold merge_stats. apply map_eq. intros k.
  rewrite lookup_union_with.
  repeat (first [ rewrite lookup_insert | rewrite lookup_singleton ];
          case_decide; simplify_eq; try reflexivity).
Qed.

(** Counters the loop starts from are carried to its result. *)
Lemma experiment_loop_shift (k : nat) :
  forall self st r w l d w0 l0 d0,
    experiment_loop strategy k self st r
      {[ "win" := w + w0; "lose" := l + l0; "draw" := d + d0 ]}
    = map_result
        (fun '(s, g, a, r') =>
           (merge_stats {[ "win" := w; "lose" := l; "draw" := d ]} s, g, a, r'))
        (experiment_loop strategy k self st r
           {[ "win" := w0; "lose" := l0; "draw" := d0 ]}).
Proof.
  induction k as [ | k IH ]; intros self st r w l d w0 l0 d0;
    cbn [experiment_loop map_result bind].
  - rewrite merge_stats_counters. reflexivity.
  - destruct (play strategy self st) as [ [ [o g1] s1 ] | | ] eqn:Hplay;
      cbn [bind]; try reflexivity.
    destruct (play_Ok strategy _ _ _ _ _ Hplay) as (Ho & _).
    rewrite !(dict_incr_stats _ _ _ o Ho). cbn [bind].
    destruct (reset g1 r) as [g2 r2].
    rewrite <- IH. f_equal.
    f_equal; [ lia | ]. f_equal; [ lia | ]. f_equal. lia.
Qed.

Lemma experiment_loop_app (k1 k2 : nat) :
  forall self st r w l d,
    experiment_loop strategy (k1 + k2) self st r
      {[ "win" := w; "lose" := l; "draw" := d ]}
    = (let* '(s1, g1, a1, r1) :=
         experiment_loop strategy k1 self st r
           {[ "win" := w; "lose" := l; "draw" := d ]} in
       let* '(s2, g2, a2, r2) :=
         experiment_loop strategy k2 g1 a1 r1
           {[ "win" := 0; "lose" := 0; "draw" := 0 ]} in
       Ok (merge_stats s1 s2, g2, a2, r2)).
Proof.
  induction k1 as [ | k1 IH ]; intros self st r w l d.
  - cbn [Nat.add experiment_loop bind].
    rewrite <- (Z.add_0_r w) at 1. rewrite <- (Z.add_0_r l) at 1.
    rewrite <- (Z.add_0_r d) at 1.
    rewrite experiment_loop_shift. unfold map_result.
    destruct (experiment_loop strategy k2 self st r _)
      as [ [ [ [s g] a ] r' ] | | ]; reflexivity.
  - cbn [Nat.add experiment_loop].
    destruct (play strategy self st) as [ [ [o g1] s1 ] | | ] eqn:Hplay;
      cbn [bind]; try reflexivity.
    destruct (play_Ok strategy _ _ _ _ _ Hplay) as (Ho & _).
    rewrite !(dict_incr_stats _ _ _ o Ho). cbn [bind].
    destruct (reset g1 r) as [g2 r2]. apply IH.
Qed.

Lemma experiment_loop_Raise (k : nat) :
  forall self st r w l d e,
    experiment_loop strategy k self st r
      {[ "win" := w; "lose" := l; "draw" := d ]} = Raise e ->
    exists log self1 st1 r1,
      rounds strategy self st r log self1 st1 r1
      /\ (length log < k)%nat
      /\ play strategy self1 st1 = Raise e.
Proof.
  induction k as [ | k IH ]; intros self st r w l d e;
    cbn [experiment_loop]; [ discriminate | ].
  destruct (play strategy self st) as [ [ [o g1] s1 ] | e' | ] eqn:Hplay;
    cbn [bind]; try discriminate.
  - destruct (play_Ok strategy _ _ _ _ _ Hplay) as (Ho & _).
    rewrite (dict_incr_stats _ _ _ o Ho). cbn [bind].
    destruct (reset g1 r) as [g2 r2] eqn:Hreset.
    intros Hloop.
    destruct (IH _ _ _ _ _ _ _ Hloop) as (log & g & a & r' & Hrounds & Hlen & Hfail).
    exists ((self, o) :: log), g, a, r'.
    split; [ | split; [ cbn [length]; lia | exact Hfail ] ].
    econstructor; [ exact Hplay | ]. rewrite Hreset. exact Hrounds.
  - intros [= ->]. exists [], self, st, r.
    split; [ constructor | ]. split; [ cbn [length]; lia | exact Hplay ].
Qed.

Lemma play_fuel (self : BlackjackGame) (st : St) :
  (forall a h u, strategy a h u <> OutOfFuel) ->
  play strategy self st <> OutOfFuel.
Proof.
  intros Hterm. unfold play, play_hands, play_player, deal_hands.
  pose proof deal_card_fuel as Hd.
  destruct (deal_card self) as [ [c1 g1] | | ] eqn:H1; cbn [bind];
    [ | discriminate | exfalso; eapply Hd; eassumption ].
  destruct (deal_card g1) as [ [c2 g2] | | ] eqn:H2; cbn [bind];
    [ | discriminate | exfalso; eapply Hd; eassumption ].
  destruct (deal_card g2) as [ [c3 g3] | | ] eqn:H3; cbn [bind];
    [ | discriminate | exfalso; eapply Hd; eassumption ].
  destruct (deal_card g3) as [ [c4 g4] | | ] eqn:H4; cbn [bind];
    [ | discriminate | exfalso; eapply Hd; eassumption ].
  pose proof (player_turn_fuel strategy [c3; c4] Hterm g4 st [c1; c2]) as Hp.
  destruct (player_turn strategy g4 st [c1; c2] [c3; c4])
    as [ [ [g5 st5] ph ] | | ]; cbn [bind]; [ | discriminate | congruence ].
  pose proof (dealer_turn_fuel g5 [c3; c4]) as Hdt.
  destruct (dealer_turn g5 [c3; c4]) as [ [g6 dh] | | ]; cbn [bind];
    [ | discriminate | congruence ].
  unfold determine_winner.
  pose proof (calculate_hand_value_fuel ph) as Hpv.
  destruct (calculate_hand_value ph); cbn [bind]; [ | discriminate | congruence ].
  pose proof (calculate_hand_value_fuel dh) as Hdv.
  destruct (calculate_hand_value dh); cbn [bind]; [ | discriminate | congruence ].
  discriminate.
Qed.

Lemma experiment_loop_fuel (k : nat) :
  (forall a h u, strategy a h u <> OutOfFuel) ->
  forall self st r w l d,
    experiment_loop strategy k self st r
      {[ "win" := w; "lose" := l; "draw" := d ]} <> OutOfFuel.
Proof.
  intros Hterm. induction k as [ | k IH ]; intros self st r w l d;
    cbn [experiment_loop]; [ discriminate | ].
  pose proof (play_fuel self st Hterm) as Hp.
  destruct (play strategy self st) as [ [ [o g1] s1 ] | | ] eqn:Hplay;
    cbn [bind]; [ | discriminate | congruence ].
  destruct (play_Ok strategy _ _ _ _ _ Hplay) as (Ho & _).
  rewrite (dict_incr_stats _ _ _ o Ho). cbn [bind].
  destruct (reset g1 r) as [g2 r2]. apply IH.
Qed.

(** The recorder has noted one call more than cards were dealt. *)
Lemma recording_count (dealer_hand : list Card) (self : BlackjackGame) :
  forall st log player_hand self' st' log' player_hand',
    player_turn (recording strategy) self (st, log) player_hand dealer_hand
    = Ok (self', (st', log'), player_hand') ->
    (length log' + length (cards self')
     = length log + length (cards self) + 1)%nat.
Proof.
  induction self as [ self IH ] using deck_ind.
  intros st log player_hand self' st' log' player_hand'.
  rewrite player_turn_unfold.
  destruct (getitem dealer_hand 0) as [ upcard | | ]; cbn [bind];
    try discriminate.
  unfold recording at 1. cbn [fst snd].
  destruct (strategy st player_hand upcard) as [ [ [ | ] st1 ] | | ];
    cbn [bind]; try discriminate.
  - destruct (deal_card self) as [ [c self1] | | ] eqn:Hok; cbn [bind];
      try discriminate.
    intros Hrun. specialize (IH c self1 eq_refl _ _ _ _ _ _ _ Hrun).
    apply deal_card_Ok in Hok as [Hc _].
    rewrite Hc, !length_app in *. cbn [length] in *. lia.
  - intros [= <- <- <- <-]. rewrite length_app. cbn [length]. lia.
Qed.

End ExperimentMore.

(** X11. An experiment raises only what a round raises: if it fails
    with [e], then some rounds, fewer than [n_runs], were played and
    counted, and [play] raised [e] in the next one.  The update of the
    counters never fails. *)
Theorem experiment_error_from_round {St : Type} (strategy : Strategy St)
    (n_runs : Z) (self : BlackjackGame) (st : St) (r : RandomState) (e : exn)
    (Hfail : experiment strategy n_runs self st r = Raise e) :
  exists log self1 st1 r1,
    rounds strategy self st r log self1 st1 r1
    /\ Z.of_nat (length log) < n_runs
    /\ play strategy self1 st1 = Raise e.
Proof.
  unfold experiment in Hfail.
  destruct (experiment_loop_Raise strategy _ _ _ _ _ _ _ _ Hfail)
    as (log & g & a & r' & Hrounds & Hlen & Hplay).
  exists log, g, a, r'. split; [ exact Hrounds | ]. split; [ lia | exact Hplay ].
Qed.

Lemma experiment_error_from_round_witness :
  experiment always_hit 2 (game_of ["2"; "3"; "4"; "5"; "6"]) tt zeros
  = Raise IndexError
  /\ exists log self1 st1 r1,
      rounds always_hit (game_of ["2"; "3"; "4"; "5"; "6"]) tt zeros
        log self1 st1 r1
      /\ Z.of_nat (length log) < 2
      /\ play always_hit self1 st1 = Raise IndexError.
Proof.
  pose (Hfail := eq_refl
          : experiment always_hit 2 (game_of ["2"; "3"; "4"; "5"; "6"]) tt zeros
            = Raise IndexError).
  split; [ exact Hfail | ].
  exact (experiment_error_from_round always_hit 2 _ tt zeros IndexError Hfail).
Defined.

(** X12. A batch can be split: an experiment of [a + b] rounds is an
    experiment of [a] rounds followed, from the game, the strategy state
    and the generator it leaves, by one of [b] rounds, with the counters
    of the two added key by key; an error of either part is the error of
    the whole. *)
Theorem experiment_splits {St : Type} (strategy : Strategy St)
    (a b : Z) (Ha : 0 <= a) (Hb : 0 <= b)
    (self : BlackjackGame) (st : St) (r : RandomState) :
  experiment strategy (a + b) self st r
  = (let* '(s1, g1, a1, r1) := experiment strategy a self st r in
     let* '(s2, g2, a2, r2) := experiment strategy b g1 a1 r1 in
     Ok (merge_stats s1 s2, g2, a2, r2)).
Proof.
  unfold experiment. rewrite Z2Nat.inj_add by assumption.
  apply experiment_loop_app.
Qed.

Lemma experiment_splits_witness :
  0 <= 1 /\ 0 <= 2
  /\ experiment basic_strategy (1 + 2) one_deck tt counting
     = (let* '(s1, g1, a1, r1) := experiment basic_strategy 1 one_deck tt counting in
        let* '(s2, g2, a2, r2) := experiment basic_strategy 2 g1 a1 r1 in
        Ok (merge_stats s1 s2, g2, a2, r2)).
Proof.
  pose (Ha := ltac:(lia) : 0 <= 1).
  pose (Hb := ltac:(lia) : 0 <= 2).
  split; [ exact Ha | split; [ exact Hb | ] ].
  exact (experiment_splits basic_strategy 1 2 Ha Hb one_deck tt counting).
Defined.

(** ** The strategy object *)

Section StrategyObject.

Lemma callable_turn (n : Z) (dealer_hand : list Card) (upcard : Card) :
  getitem dealer_hand 0 = Ok upcard ->
  forall self hand,
    player_turn callable self (blackjack_strategies.__init__ n) hand dealer_hand
    = map_result (fun '(g, h) => (g, blackjack_strategies.__init__ n, h))
        (dealer_turn self hand).
Proof.
  intros Hup self. induction self as [ self IH ] using deck_ind. intros hand.
  rewrite player_turn_unfold, dealer_turn_unfold, Hup. cbn [bind].
  unfold callable at 1, blackjack_strategies.__call__.
  cbn [blackjack_strategies.strategy blackjack_strategies.__init__].
  unfold blackjack_strategies.train_strategy, blackjack_strategies.basic.
  rewrite strategies_value_same.
  destruct (calculate_hand_value hand) as [ v | | ]; cbn [bind map_result];
    try reflexivity.
  destruct (v <? 17); [ | reflexivity ].
  destruct (deal_card self) as [ [c self'] | | ] eqn:Hok; cbn [bind];
    try reflexivity.
  apply (IH c self' eq_refl).
Qed.

Lemma callable_play (n : Z) (self : BlackjackGame) :
  play callable self (blackjack_strategies.__init__ n)
  = map_result (fun '(o, g, _) => (o, g, blackjack_strategies.__init__ n))
      (play basic_strategy self tt).
Proof.
  unfold play, play_hands, play_player.
  destruct (deal_hands self) as [ [ [g0 p0] d0 ] | | ] eqn:Hdeal; cbn [bind];
    try reflexivity.
  destruct (deal_hands_Ok _ _ _ _ Hdeal) as (_ & _ & Hd2).
  destruct d0 as [ | up d0 ]; [ discriminate | ].
  rewrite (callable_turn n (up :: d0) up eq_refl).
  rewrite (basic_turn (up :: d0) up eq_refl).
  destruct (dealer_turn g0 p0) as [ [g1 ph] | | ]; cbn [map_result bind];
    try reflexivity.
  destruct (dealer_turn g1 (up :: d0)) as [ [g2 dh] | | ]; cbn [bind];
    try reflexivity.
  destruct (determine_winner ph dh); reflexivity.
Qed.

Lemma callable_experiment_loop (n : Z) (k : nat) :
  forall self r results,
    experiment_loop callable k self (blackjack_strategies.__init__ n) r results
    = map_result
        (fun '(s, g, _, r') => (s, g, blackjack_strategies.__init__ n, r'))
        (experiment_loop basic_strategy k self tt r results).
Proof.
  induction k as [ | k IH ]; intros self r results; [ reflexivity | ].
  cbn [experiment_loop]. rewrite callable_play.
  destruct (play basic_strategy self tt) as [ [ [o g1] [] ] | | ];
    cbn [map_result bind]; try reflexivity.
  destruct (dict_incr results o); cbn [bind]; try reflexivity.
  destruct (reset g1 r) as [g2 r2]. apply IH.
Qed.

End StrategyObject.

(** X13. A [PlayerStrategy] object plays the basic strategy, whatever
    number of decks it was built with, and calling it leaves it as it
    was: rounds and experiments run with the object give what they give
    with the function [basic]. *)
Theorem player_strategy_is_basic (n : Z) (self : BlackjackGame) :
  (forall hand upcard,
      callable (blackjack_strategies.__init__ n) hand upcard
      = map_result (fun hit => (hit, blackjack_strategies.__init__ n))
          (blackjack_strategies.basic hand upcard))
  /\ play callable self (blackjack_strategies.__init__ n)
     = map_result (fun '(o, g, _) => (o, g, blackjack_strategies.__init__ n))
         (play basic_strategy self tt)
  /\ forall n_runs r,
      experiment callable n_runs self (blackjack_strategies.__init__ n) r
      = map_result
          (fun '(s, g, _, r') => (s, g, blackjack_strategies.__init__ n, r'))
          (experiment basic_strategy n_runs self tt r).
Proof.
  split; [ reflexivity | ]. split; [ apply callable_play | ].
  intros n_runs r. apply callable_experiment_loop.
Qed.

(** X14. A round always ends, by an outcome or by an exception, as long
    as every call of the strategy does: each hit takes a card from a
    finite deck.  So does an experiment.  In a player's turn that ends
    normally the strategy was called once more than cards were dealt. *)
Theorem round_terminates {St : Type} (strategy : Strategy St)
    (Hterm : forall a h u, strategy a h u <> OutOfFuel)
    (self : BlackjackGame) (st : St) :
  play strategy self st <> OutOfFuel
  /\ (forall n_runs r, experiment strategy n_runs self st r <> OutOfFuel)
  /\ (forall ph dh self' st' log ph',
        player_turn (recording strategy) self (st, []) ph dh
        = Ok (self', (st', log), ph') ->
        (length log + length (cards self') = length (cards self) + 1)%nat).
Proof.
  split; [ apply play_fuel, Hterm | ]. split.
  - intros n_runs r. apply experiment_loop_fuel, Hterm.
  - intros ph dh self' st' log ph' Hrun.
    apply (recording_count strategy _ _ _ _ _ _ _ _ _ Hrun).
Qed.

Lemma round_terminates_witness :
  (forall a h u, always_hit a h u <> OutOfFuel)
  /\ play always_hit one_deck tt <> OutOfFuel.
Proof.
  assert (Hterm : forall a h u, always_hit a h u <> OutOfFuel)
    by (intros a h u; discriminate).
  split; [ exact Hterm | ].
  exact (proj1 (round_terminates always_hit Hterm one_deck tt)).
Defined.
